(** * The GEDCOM element tree and its multi-line value codec

    A shallow embedding of [gedcom/element/element.py] (class [Element]) and
    of [gedcom/element/source.py] (class [SourceElement]), with the
    properties of the splitter ([set_multi_line_value]), the joiner
    ([get_multi_line_value]) and the serializer ([to_gedcom_string]).

    Conventions of the embedding.
    - A Python [str] is a [string]; a character is a code point below 256.
    - A Python [int] is a [Z].
    - An [Element] object is a tree node carrying its private attributes and
      the list of its children; the parent back-reference is the position of
      the node in the tree.  Where the source mutates a child that already
      sits in its parent's list, the embedding writes the mutated child back
      at its index.
    - The two [while] loops of the source whose termination depends on the
      data run on fuel: [None] is the answer of a run that needs more. *)

From Stdlib Require Import ZArith List String Ascii Bool Arith Lia.
From Stdlib Require Import DecimalString.
Import ListNotations.
Local Open Scope string_scope.
Local Open Scope nat_scope.

(** ** Python strings *)

Module Py.

(** [len(s)] *)
Definition len (s : string) : nat := String.length s.

(** [s[:n]] for [0 <= n] *)
Fixpoint slice_to (n : nat) (s : string) : string :=
  match n, s with
  | S n', String c s' => String c (slice_to n' s')
  | _, _ => EmptyString
  end.

(** [s[n:]] for [0 <= n] *)
Fixpoint slice_from (n : nat) (s : string) : string :=
  match n, s with
  | S n', String _ s' => slice_from n' s'
  | _, _ => s
  end.

(** [str(z)] for an [int]: decimal digits, with a leading minus sign for a
    negative number. *)
Definition str (z : Z) : string := NilZero.string_of_int (Z.to_int z).

(** The line boundaries of [str.splitlines] among the code points below
    256: LF, CR, VT, FF, FS, GS, RS and NEL (and the pair CR LF). *)
Definition is_line_boundary (c : ascii) : bool :=
  let n := nat_of_ascii c in
  (n =? 10) || (n =? 13) || (n =? 11) || (n =? 12) ||
  (n =? 28) || (n =? 29) || (n =? 30) || (n =? 133).

Definition LF : ascii := ascii_of_nat 10.
Definition CR : ascii := ascii_of_nat 13.

(** [s.splitlines()]: the lines of [s] without their boundaries; a
    boundary at the very end of [s] opens no further line, and CR LF counts
    as one boundary. *)
Fixpoint splitlines (s : string) : list string :=
  match s with
  | EmptyString => []
  | String c s' =>
      if is_line_boundary c then
        match s' with
        | String c' s'' =>
            if Ascii.eqb c CR && Ascii.eqb c' LF
            then EmptyString :: splitlines s''
            else EmptyString :: splitlines s'
        | EmptyString => [EmptyString]
        end
      else
        match splitlines s' with
        | [] => [String c EmptyString]
        | line :: lines => String c line :: lines
        end
  end.

(** Whether [s] contains a line boundary. *)
Fixpoint has_line_boundary (s : string) : bool :=
  match s with
  | EmptyString => false
  | String c s' => is_line_boundary c || has_line_boundary s'
  end.

(** [sep.join(lines)] *)
Definition join (sep : string) (lines : list string) : string :=
  String.concat sep lines.

(** [c * n] for a one-character string [c] *)
Fixpoint replicate (n : nat) (c : ascii) : string :=
  match n with
  | O => EmptyString
  | S n' => String c (replicate n' c)
  end.

End Py.

(** ** Python dictionaries with string keys

    A [dict] keeps its keys in insertion order; an assignment to a key that
    is present replaces the value where the key stands. *)

Module PyDict.

Definition dict : Type := list (string * string).

(** [{}] *)
Definition empty : dict := [].

(** [d[key] = value] *)
Fixpoint set (d : dict) (key value : string) : dict :=
  match d with
  | [] => [(key, value)]
  | (k, v) :: d' =>
      if (k =? key)%string then (k, value) :: d'
      else (k, v) :: set d' key value
  end.

(** [d.get(key)] *)
Fixpoint get (d : dict) (key : string) : option string :=
  match d with
  | [] => None
  | (k, v) :: d' => if (k =? key)%string then Some v else get d' key
  end.

(** [list(d.keys())] *)
Definition keys (d : dict) : list string := map fst d.

End PyDict.

(** ** The constants of [gedcom.tags]

    The module [gedcom.tags] is not among the sources: the tag constants the
    two classes read are taken as parameters. *)

Class Tags : Type := {
  GEDCOM_TAG_CONCATENATION : string;
  GEDCOM_TAG_CONTINUED : string;
  GEDCOM_TAG_FAMILY : string;
  GEDCOM_TAG_INDIVIDUAL : string;
  GEDCOM_TAG_NOTE : string;
  GEDCOM_TAG_OBJECT : string;
  GEDCOM_TAG_REPOSITORY : string;
  GEDCOM_TAG_SOURCE : string;
  GEDCOM_TAG_SUBMITTER : string;
  GEDCOM_TAG_SUBMISSION : string;
  GEDCOM_TAG_HEADER : string
}.

(** The tag names of the GEDCOM 5.5 standard, the instance at which the
    general statements below are exercised. *)
Definition gedcom_5_5 : Tags := {|
  GEDCOM_TAG_CONCATENATION := "CONC";
  GEDCOM_TAG_CONTINUED := "CONT";
  GEDCOM_TAG_FAMILY := "FAM";
  GEDCOM_TAG_INDIVIDUAL := "INDI";
  GEDCOM_TAG_NOTE := "NOTE";
  GEDCOM_TAG_OBJECT := "OBJE";
  GEDCOM_TAG_REPOSITORY := "REPO";
  GEDCOM_TAG_SOURCE := "SOUR";
  GEDCOM_TAG_SUBMITTER := "SUBM";
  GEDCOM_TAG_SUBMISSION := "SUBN";
  GEDCOM_TAG_HEADER := "HEAD"
|}.

(** The constants of [gedcom.tags] that only [gedcom/element/source.py]
    reads, parameters as well. *)
Class SourceTags : Type := {
  GEDCOM_TAG_ABBREVIATION : string;
  GEDCOM_PROGRAM_DEFINED_TAG_TEMPLATE_BIBLIOGRAPHY : string;
  GEDCOM_TAG_REFERENCE : string;
  GEDCOM_PROGRAM_DEFINED_TAG_TEMPLATE_SHORT_QUOTE : string;
  GEDCOM_TAG_TITLE : string;
  GEDCOM_PROGRAM_DEFINED_TAG_SOURCE_TEMPLATE : string;
  GEDCOM_TAG_TEMPLATE_ID : string;
  GEDCOM_TAG_FIELD : string;
  GEDCOM_TAG_FIELD_NAME : string;
  GEDCOM_TAG_FIELD_VALUE : string
}.

(** Tag names for the source accessors, the instance at which the general
    statements below are exercised. *)
Definition source_tags_5_5 : SourceTags := {|
  GEDCOM_TAG_ABBREVIATION := "ABBR";
  GEDCOM_PROGRAM_DEFINED_TAG_TEMPLATE_BIBLIOGRAPHY := "_BIBL";
  GEDCOM_TAG_REFERENCE := "REFN";
  GEDCOM_PROGRAM_DEFINED_TAG_TEMPLATE_SHORT_QUOTE := "_SUBQ";
  GEDCOM_TAG_TITLE := "TITL";
  GEDCOM_PROGRAM_DEFINED_TAG_SOURCE_TEMPLATE := "_TMPLT";
  GEDCOM_TAG_TEMPLATE_ID := "TID";
  GEDCOM_TAG_FIELD := "FIELD";
  GEDCOM_TAG_FIELD_NAME := "NAME";
  GEDCOM_TAG_FIELD_VALUE := "VALUE"
|}.

(** ** The element tree *)

(** The classes [new_child_element] instantiates: the base class [Element]
    and its nine record subclasses. *)
Inductive ElementClass : Set :=
  | BaseElement
  | FamilyElement
  | IndividualElement
  | NoteElement
  | ObjectElement
  | RepositoryElement
  | SourceElement
  | SubmitterElement
  | SubmissionElement
  | HeaderElement.

(** The private attributes of an [Element] object, with its class. *)
#[warnings="-register-all"] Inductive Element : Type := mkElement {
  class_of : ElementClass;
  __level : Z;
  __pointer : string;
  __tag : string;
  __value : string;
  __crlf : string;
  __children : list Element
}.

(** In-place updates of one attribute. *)
Definition with_value (self : Element) (value : string) : Element :=
  mkElement (class_of self) (__level self) (__pointer self) (__tag self)
            value (__crlf self) (__children self).

Definition with_children (self : Element) (children : list Element) : Element :=
  mkElement (class_of self) (__level self) (__pointer self) (__tag self)
            (__value self) (__crlf self) children.

(** ** Sample elements and values

    The concrete inputs at which the statements below are exercised. *)

Definition newline : string := String Py.LF "".

Definition carriage_return_line_feed : string := String Py.CR (String Py.LF "").

(** The record subclasses taken to inherit [get_tag]. *)
Definition inherited_get_tag : ElementClass -> string -> string :=
  fun _ tag => tag.

(** [Element(0, "", "NOTE", "", multi_line=False)] *)
Definition plain_note : Element :=
  mkElement BaseElement 0 "" "NOTE" "" newline [].

(** The same element with the terminator CR LF. *)
Definition crlf_note : Element :=
  mkElement BaseElement 0 "" "NOTE" "" carriage_return_line_feed [].

(** The same element with an empty terminator. *)
Definition unterminated_note : Element :=
  mkElement BaseElement 0 "" "NOTE" "" "" [].

(** A note with a pointer of 260 characters. *)
Definition long_pointer_note : Element :=
  mkElement BaseElement 0 (Py.replicate 260 "I") "NOTE" "" newline [].

(** A note that went through an earlier split and has a source citation
    between its continuation lines. *)
Definition stale_note : Element :=
  mkElement BaseElement 1 "" "NOTE" "old text" newline
    [ mkElement BaseElement 2 "" "CONC" " goes on" newline [];
      mkElement SourceElement 2 "" "SOUR" "@S1@" newline
        [ mkElement BaseElement 3 "" "PAGE" "42" newline [] ];
      mkElement BaseElement 2 "" "CONT" "second old line" newline [] ].

(** A note at the level [10 ** 249], a number of 250 digits. *)
Definition deep_note : Element :=
  mkElement BaseElement (10 ^ 249) "" "NOTE" "" newline [].

(** A note whose line terminator has 250 characters. *)
Definition long_terminator_note : Element :=
  mkElement BaseElement 0 "" "NOTE" "" (Py.replicate 250 Py.LF) [].

(** A source record with a title and a repository citation. *)
Definition cited_source : Element :=
  mkElement SourceElement 0 "@S1@" "SOUR" "" newline
    [ mkElement BaseElement 1 "" "TITL" "Parish register" newline [];
      mkElement RepositoryElement 1 "" "REPO" "@R1@" newline [] ].

Definition two_lines : string := "line one" ++ newline ++ "line two".

Definition long_text : string := Py.replicate 600 "a".

(** A line whose first 248 characters, the budget of [plain_note], are a
    word and two spaces, and that goes on with a second word. *)
Definition spaced_text : string :=
  Py.replicate 246 "a" ++ "  " ++ Py.replicate 100 "b".

(** A source record with two titles, a template and a note. *)
Definition templated_source : Element :=
  mkElement SourceElement 0 "@S2@" "SOUR" "" newline
    [ mkElement BaseElement 1 "" "TITL" "First title" newline [];
      mkElement BaseElement 1 "" "NOTE" "A note" newline [];
      mkElement BaseElement 1 "" "TITL" "Second" newline
        [ mkElement BaseElement 2 "" "CONC" " title" newline [];
          mkElement BaseElement 2 "" "CONT" "goes on" newline [] ];
      mkElement BaseElement 1 "" "_TMPLT" "" newline
        [ mkElement BaseElement 2 "" "TID" "42" newline [];
          mkElement BaseElement 2 "" "FIELD" "" newline
            [ mkElement BaseElement 3 "" "NAME" "Author" newline [];
              mkElement BaseElement 3 "" "VALUE" "A. Writer" newline [] ];
          mkElement BaseElement 2 "" "FIELD" "" newline
            [ mkElement BaseElement 3 "" "VALUE" "nameless" newline [] ] ] ].

(** Runs that may need more fuel. *)
Notation "x <- a ;; b" :=
  (match a with Some x => b | None => None end)
  (at level 61, a at next level, right associativity).
Notation "' pat <- a ;; b" :=
  (match a with Some pat => b | None => None end)
  (at level 61, pat pattern, a at next level, right associativity).

Section ElementMethods.

Context {tags : Tags}.

(** [get_tag] of the record subclasses whose modules are not among the
    sources, as a function of the class and of the stored tag.
    [SourceElement] is under [gedcom/element/source.py]. *)
Variable absent_get_tag : ElementClass -> string -> string.

Definition get_level (self : Element) : Z := __level self.

Definition get_pointer (self : Element) : string := __pointer self.

(** [Element.get_tag], overridden by [SourceElement.get_tag]. *)
Definition get_tag (self : Element) : string :=
  match class_of self with
  | BaseElement => __tag self
  | SourceElement => GEDCOM_TAG_SOURCE
  | c => absent_get_tag c (__tag self)
  end.

Definition get_value (self : Element) : string := __value self.

Definition set_value (self : Element) (value : string) : Element :=
  with_value self value.

Definition get_child_elements (self : Element) : list Element :=
  __children self.

(** [to_gedcom_string(recursive)] *)
Fixpoint to_gedcom_string (self : Element) (recursive : bool) : string :=
  let result := Py.str (get_level self) in
  let result :=
    if negb (get_pointer self =? "")%string
    then result ++ " " ++ get_pointer self else result in
  let result := result ++ " " ++ get_tag self in
  let result :=
    if negb (get_value self =? "")%string
    then result ++ " " ++ get_value self else result in
  let result := result ++ __crlf self in
  let result := if (get_level self <? 0)%Z then "" else result in
  if recursive
  then fold_left
         (fun result child_element =>
            result ++ to_gedcom_string child_element true)
         (__children self) result
  else result.

(** The [for element in self.get_child_elements()] loop of
    [get_multi_line_value]: the loop state is [(result, last_crlf)]. *)
Definition get_multi_line_value_for (children : list Element)
           (state : string * string) : string * string :=
  fold_left
    (fun '(result, last_crlf) element =>
       let tag := get_tag element in
       if (tag =? GEDCOM_TAG_CONCATENATION)%string
       then (result ++ get_value element, __crlf element)
       else if (tag =? GEDCOM_TAG_CONTINUED)%string
       then (result ++ last_crlf ++ get_value element, __crlf element)
       else (result, last_crlf))
    children state.

(** [get_multi_line_value] *)
Definition get_multi_line_value (self : Element) : string :=
  fst (get_multi_line_value_for (get_child_elements self)
                                (get_value self, __crlf self)).

(** [__available_characters] *)
Definition __available_characters (self : Element) : nat :=
  let element_characters := Py.len (to_gedcom_string self false) in
  if 255 <? element_characters then 0 else 255 - element_characters.

(** The [while] loop of [__line_length].  [spaces] grows by one in each
    round and the loop stops at [spaces = available_characters] at the
    latest, so [available_characters - spaces] rounds are all it can make. *)
Fixpoint __line_length_while (line : string) (available_characters : nat)
         (rounds : nat) (spaces : nat) : nat :=
  match rounds with
  | O => spaces
  | S rounds' =>
      if (spaces <? available_characters) &&
         match String.get (available_characters - spaces - 1) line with
         | Some c => Ascii.eqb c " "
         | None => false
         end
      then __line_length_while line available_characters rounds' (S spaces)
      else spaces
  end.

(** [__line_length] *)
Definition __line_length (self : Element) (line : string) : nat :=
  let total_characters := Py.len line in
  let available_characters := __available_characters self in
  if total_characters <=? available_characters then total_characters
  else
    let spaces :=
      __line_length_while line available_characters available_characters 0 in
    if spaces =? available_characters then available_characters
    else available_characters - spaces.

(** [__set_bounded_value]: the updated element and the returned length. *)
Definition __set_bounded_value (self : Element) (value : string)
  : Element * nat :=
  let line_length := __line_length self value in
  (set_value self (Py.slice_to line_length value), line_length).

(** [add_child_element] *)
Definition add_child_element (self element : Element) : Element :=
  with_children self (get_child_elements self ++ [element]).

(** The child [new_child_element] returned is the last of the list; a
    mutation of it is seen through the parent. *)
Definition store_last_child (self child : Element) : Element :=
  with_children self (removelast (get_child_elements self) ++ [child]).

(** The class [new_child_element] selects for a tag. *)
Definition new_child_class (tag : string) : ElementClass :=
  if (tag =? GEDCOM_TAG_FAMILY)%string then FamilyElement
  else if (tag =? GEDCOM_TAG_INDIVIDUAL)%string then IndividualElement
  else if (tag =? GEDCOM_TAG_NOTE)%string then NoteElement
  else if (tag =? GEDCOM_TAG_OBJECT)%string then ObjectElement
  else if (tag =? GEDCOM_TAG_REPOSITORY)%string then RepositoryElement
  else if (tag =? GEDCOM_TAG_SOURCE)%string then SourceElement
  else if (tag =? GEDCOM_TAG_SUBMITTER)%string then SubmitterElement
  else if (tag =? GEDCOM_TAG_SUBMISSION)%string then SubmissionElement
  else if (tag =? GEDCOM_TAG_HEADER)%string then HeaderElement
  else BaseElement.

(** The purge of [set_multi_line_value]: the children kept. *)
Definition not_reserved (child : Element) : bool :=
  negb ((get_tag child =? GEDCOM_TAG_CONCATENATION)%string ||
        (get_tag child =? GEDCOM_TAG_CONTINUED)%string).

(** The constructor calls [set_multi_line_value], which creates children
    through the constructor: the methods of this cycle take the method
    they call back as [set_multi_line_value_rec]. *)
Section Cycle.

Variable set_multi_line_value_rec : Element -> string -> option Element.

(** [Element.__init__], inherited by the subclasses. *)
Definition __init__ (cls : ElementClass) (level : Z)
           (pointer tag value crlf : string) (multi_line : bool)
  : option Element :=
  let self := mkElement cls level pointer tag value crlf [] in
  if multi_line then set_multi_line_value_rec self value else Some self.

(** [new_child_element]: the parent with the child appended, and the
    child. *)
Definition new_child_element (self : Element) (tag pointer value : string)
  : option (Element * Element) :=
  child_element <-
    __init__ (new_child_class tag) (get_level self + 1)%Z pointer tag
             value (__crlf self) true ;;
  Some (add_child_element self child_element, child_element).

(** [__add_bounded_child] *)
Definition __add_bounded_child (self : Element) (tag value : string)
  : option (Element * nat) :=
  '(self, child) <- new_child_element self tag "" "" ;;
  let '(child, n) := __set_bounded_value child value in
  Some (store_last_child self child, n).

(** The [while] loop of [__add_concatenation], from [index]. *)
Fixpoint __add_concatenation_while (fuel : nat) (self : Element)
         (string : string) (size index : nat) : option Element :=
  if index <? size then
    match fuel with
    | O => None
    | S fuel' =>
        '(self, n) <-
          __add_bounded_child self GEDCOM_TAG_CONCATENATION
                              (Py.slice_from index string) ;;
        __add_concatenation_while fuel' self string size (index + n)
    end
  else Some self.

(** [__add_concatenation] *)
Definition __add_concatenation (fuel : nat) (self : Element)
           (string : string) : option Element :=
  let index := 0 in
  let size := Py.len string in
  __add_concatenation_while fuel self string size index.

(** The [for line in lines] loop of [set_multi_line_value]. *)
Fixpoint set_multi_line_value_for (fuel : nat) (self : Element)
         (lines : list string) : option Element :=
  match lines with
  | [] => Some self
  | line :: lines' =>
      '(self, n) <- __add_bounded_child self GEDCOM_TAG_CONTINUED line ;;
      self <- __add_concatenation fuel self (Py.slice_from n line) ;;
      set_multi_line_value_for fuel self lines'
  end.

(** The body of [set_multi_line_value]. *)
Definition set_multi_line_value_body (fuel : nat) (self : Element)
           (value : string) : option Element :=
  let self := set_value self "" in
  let self :=
    with_children self (filter not_reserved (get_child_elements self)) in
  let lines := Py.splitlines value in
  match lines with
  | [] => Some self
  | line :: lines =>
      let '(self, n) := __set_bounded_value self line in
      self <- __add_concatenation fuel self (Py.slice_from n line) ;;
      set_multi_line_value_for fuel self lines
  end.

End Cycle.

(** [set_multi_line_value]: [fuel] bounds the depth of the calls through
    the constructor and the rounds of each [__add_concatenation] loop. *)
Fixpoint set_multi_line_value (fuel : nat) (self : Element) (value : string)
  : option Element :=
  match fuel with
  | O => None
  | S fuel' =>
      set_multi_line_value_body (set_multi_line_value fuel') fuel' self value
  end.

(** [Element(level, pointer, tag, value, crlf, multi_line)], and the same
    call on a subclass. *)
Definition Element_new (fuel : nat) (cls : ElementClass) (level : Z)
           (pointer tag value crlf : string) (multi_line : bool)
  : option Element :=
  __init__ (set_multi_line_value fuel) cls level pointer tag value crlf
           multi_line.

(** [SourceElement.get_repository_pointer]: the loop state is the pair of
    the locals [(repository_pointer, reference)]; [reference] is unbound
    until the loop assigns it. *)
Definition get_repository_pointer (self : Element) : string :=
  let repository_pointer := "" in
  let '(repository_pointer, reference) :=
    fold_left
      (fun '(repository_pointer, reference) child =>
         if (get_tag child =? GEDCOM_TAG_REPOSITORY)%string
         then (repository_pointer, Some (get_value child))
         else (repository_pointer, reference))
      (get_child_elements self)
      (repository_pointer, @None string) in
  repository_pointer.

(** ** Notions the statements are written in *)

(** The child [new_child_element(tag)] hands to [__add_bounded_child]: a
    fresh element one level below [self], with the terminator of [self],
    no pointer, no value and no children. *)
Definition blank_child (self : Element) (tag : string) : Element :=
  mkElement (new_child_class tag) (get_level self + 1)%Z "" tag ""
            (__crlf self) [].

(** The budget of the concatenation children of [self]. *)
Definition concatenation_budget (self : Element) : nat :=
  __available_characters (blank_child self GEDCOM_TAG_CONCATENATION).

(** [blank_child] with the value [__add_bounded_child] gives it. *)
Definition bounded_child (self : Element) (tag value : string) : Element :=
  with_value (blank_child self tag)
             (Py.slice_to (__line_length (blank_child self tag) value) value).

(** A child of [self] with the reserved tag [tag], blank but for a value
    within its own budget. *)
Definition chunk_child (self : Element) (tag : string) (child : Element)
  : Prop :=
  exists value,
    child = with_value (blank_child self tag) value /\
    Py.len value <= __available_characters (blank_child self tag).

(** The value [set_multi_line_value(value)] leaves on [self] itself: the
    bounded head of the first line of [value]. *)
Definition first_chunk (self : Element) (value : string) : string :=
  match Py.splitlines value with
  | [] => ""
  | line :: _ => Py.slice_to (__line_length (with_value self "") line) line
  end.

(** The values of a list of elements, one after the other. *)
Definition values_text (l : list Element) : string :=
  fold_right (fun child text => get_value child ++ text) "" l.

(** The lines [lines], each after the terminator [crlf]. *)
Definition lines_text (crlf : string) (lines : list string) : string :=
  fold_right (fun line text => crlf ++ line ++ text) "" lines.

(** A child the splitter generates under [self]: a blank child with one
    of the two reserved tags, given a value within its own budget. *)
Definition generated_under (self child : Element) : Prop :=
  chunk_child self GEDCOM_TAG_CONCATENATION child \/
  chunk_child self GEDCOM_TAG_CONTINUED child.

(** The reserved tags are two different tags and none of them is one of
    the nine record tags of [new_child_element]. *)
Definition reserved_tags_plain : Prop :=
  GEDCOM_TAG_CONCATENATION <> GEDCOM_TAG_CONTINUED /\
  new_child_class GEDCOM_TAG_CONCATENATION = BaseElement /\
  new_child_class GEDCOM_TAG_CONTINUED = BaseElement.

(** [self] with the elements [kept] in front of its children. *)
Definition prepend_children (kept : list Element) (self : Element)
  : Element :=
  with_children self (kept ++ get_child_elements self).

(** Fuel that is enough for [set_multi_line_value] on [value] when every
    round of [__add_concatenation] consumes a character. *)
Definition enough_fuel (value : string) : nat := 2 + Py.len value.

(** The prefix of a line in the words of the specification: level,
    optional pointer and tag with their separators, no value and no
    terminator. *)
Definition render_prefix (self : Element) : string :=
  Py.str (get_level self) ++
  (if (get_pointer self =? "")%string then "" else " " ++ get_pointer self)
  ++ " " ++ get_tag self.

(** The wire format of a line in the words of the specification:
    [level [SP pointer] SP tag [SP value] terminator]. *)
Definition wire_line (level : Z) (pointer tag value terminator : string)
  : string :=
  Py.str level ++
  (if (pointer =? "")%string then "" else " " ++ pointer) ++
  " " ++ tag ++
  (if (value =? "")%string then "" else " " ++ value) ++
  terminator.

(** The characters of the line of [self] that count against the bound of
    255: its own rendering without the terminator. *)
Definition line_characters (self : Element) : nat :=
  Py.len (to_gedcom_string self false) - Py.len (__crlf self).

(** The break point in the words of the specification. *)
Inductive break_point (candidate : string) (available : nat) : nat -> Prop :=
| bp_no_split :
    Py.len candidate <= available ->
    break_point candidate available (Py.len candidate)
| bp_all_spaces :
    available < Py.len candidate ->
    (forall i, i < available -> String.get i candidate = Some " "%char) ->
    break_point candidate available available
| bp_back_off n :
    available < Py.len candidate ->
    0 < n <= available ->
    String.get (n - 1) candidate <> Some " "%char ->
    (forall i, n <= i < available -> String.get i candidate = Some " "%char) ->
    break_point candidate available n.


(** ** The accessors of [SourceElement] and the remaining methods *)

Context {source_tags : SourceTags}.

(** [SourceElement.get_abbreviation] *)
Definition get_abbreviation (self : Element) : string :=
  fold_left
    (fun abbreviation child =>
       if (get_tag child =? GEDCOM_TAG_ABBREVIATION)%string
       then get_multi_line_value child else abbreviation)
    (get_child_elements self) "".

(** [SourceElement.get_bibliography] *)
Definition get_bibliography (self : Element) : string :=
  fold_left
    (fun bibliography child =>
       if (get_tag child
           =? GEDCOM_PROGRAM_DEFINED_TAG_TEMPLATE_BIBLIOGRAPHY)%string
       then get_multi_line_value child else bibliography)
    (get_child_elements self) "".

(** [SourceElement.get_reference] *)
Definition get_reference (self : Element) : string :=
  fold_left
    (fun reference child =>
       if (get_tag child =? GEDCOM_TAG_REFERENCE)%string
       then get_multi_line_value child else reference)
    (get_child_elements self) "".

(** [SourceElement.get_short_quote] *)
Definition get_short_quote (self : Element) : string :=
  fold_left
    (fun short_quote child =>
       if (get_tag child
           =? GEDCOM_PROGRAM_DEFINED_TAG_TEMPLATE_SHORT_QUOTE)%string
       then get_multi_line_value child else short_quote)
    (get_child_elements self) "".

(** [SourceElement.get_title] *)
Definition get_title (self : Element) : string :=
  fold_left
    (fun title child =>
       if (get_tag child =? GEDCOM_TAG_TITLE)%string
       then get_multi_line_value child else title)
    (get_child_elements self) "".

(** The innermost loop of [get_template], over the children of a field
    element: the loop state is the pair of the locals [(name, value)]. *)
Definition get_template_field (templateElement : Element) : string * string :=
  fold_left
    (fun '(name, value) field_element =>
       if (get_tag field_element =? GEDCOM_TAG_FIELD_NAME)%string
       then (get_value field_element, value)
       else if (get_tag field_element =? GEDCOM_TAG_FIELD_VALUE)%string
       then (name, get_multi_line_value field_element)
       else (name, value))
    (get_child_elements templateElement) ("", "").

(** The loop of [get_template] over the children of a template element. *)
Definition get_template_elements (child : Element) (template : PyDict.dict)
  : PyDict.dict :=
  fold_left
    (fun template templateElement =>
       if (get_tag templateElement =? GEDCOM_TAG_TEMPLATE_ID)%string
       then PyDict.set template "Id" (get_value templateElement)
       else if (get_tag templateElement =? GEDCOM_TAG_FIELD)%string
       then
         let '(name, value) := get_template_field templateElement in
         if negb (name =? "")%string
         then PyDict.set template name value
         else template
       else template)
    (get_child_elements child) template.

(** [SourceElement.get_template] *)
Definition get_template (self : Element) : PyDict.dict :=
  fold_left
    (fun template child =>
       if (get_tag child
           =? GEDCOM_PROGRAM_DEFINED_TAG_SOURCE_TEMPLATE)%string
       then get_template_elements child template
       else template)
    (get_child_elements self) PyDict.empty.

(** Whether a child is a continuation or concatenation line. *)
Definition is_reserved (child : Element) : bool := negb (not_reserved child).

(** Whether a child is a continuation line. *)
Definition is_continued (child : Element) : bool :=
  (get_tag child =? GEDCOM_TAG_CONTINUED)%string.

(** ** Python strings: slicing and length *)

Lemma len_append (a b : string) : Py.len (a ++ b) = Py.len a + Py.len b.
Proof.
  unfold Py.len. induction a as [|c a IH]; simpl; [reflexivity|].
  now rewrite IH.
Qed.

Lemma append_empty_r (a : string) : a ++ "" = a.
Proof. induction a as [|c a IH]; simpl; [reflexivity|now rewrite IH]. Qed.

Lemma append_assoc (a b c : string) : (a ++ b) ++ c = a ++ b ++ c.
Proof. induction a as [|x a IH]; simpl; [reflexivity|now rewrite IH]. Qed.

Lemma slice_to_from (n : nat) (s : string) :
  Py.slice_to n s ++ Py.slice_from n s = s.
Proof.
  revert s. induction n as [|n IH]; intros [|c s]; simpl; try reflexivity.
  now rewrite IH.
Qed.

Lemma len_slice_to (n : nat) (s : string) :
  Py.len (Py.slice_to n s) = Nat.min n (Py.len s).
Proof.
  unfold Py.len. revert s.
  induction n as [|n IH]; intros [|c s]; simpl; try reflexivity.
  now rewrite IH.
Qed.

Lemma len_slice_from (n : nat) (s : string) :
  Py.len (Py.slice_from n s) = Py.len s - n.
Proof.
  unfold Py.len. revert s.
  induction n as [|n IH]; intros [|c s]; simpl; try reflexivity.
  now rewrite IH.
Qed.

Lemma slice_from_add (n m : nat) (s : string) :
  Py.slice_from m (Py.slice_from n s) = Py.slice_from (n + m) s.
Proof.
  revert s. induction n as [|n IH]; intros s; simpl; [reflexivity|].
  destruct s as [|c s]; simpl; [now destruct m|]. apply IH.
Qed.

Lemma len_zero_empty (s : string) : Py.len s = 0 -> s = "".
Proof. destruct s; simpl; [reflexivity|discriminate]. Qed.

Lemma eqb_empty_len (s : string) : (s =? "")%string = (Py.len s =? 0).
Proof. destruct s; reflexivity. Qed.

(** ** The serializer *)

Lemma fold_left_append {A : Type} (f : A -> string) (l : list A) (r : string) :
  fold_left (fun result x => result ++ f x) l r
  = r ++ String.concat "" (map f l).
Proof.
  revert r. induction l as [|x l IH]; intros r; simpl.
  - now rewrite append_empty_r.
  - rewrite IH, append_assoc. destruct l as [|y l]; simpl.
    + now rewrite append_empty_r.
    + reflexivity.
Qed.

Lemma to_gedcom_string_own (self : Element) :
  to_gedcom_string self false
  = if (get_level self <? 0)%Z then ""
    else wire_line (get_level self) (get_pointer self) (get_tag self)
                   (get_value self) (__crlf self).
Proof.
  destruct self as [cls lvl ptr tg val tm ch]; unfold wire_line; simpl.
  destruct (lvl <? 0)%Z; [reflexivity|].
  destruct (ptr =? "")%string, (val =? "")%string; simpl;
    repeat rewrite ?append_assoc, ?append_empty_r; simpl; reflexivity.
Qed.

Lemma to_gedcom_string_children (self : Element) (l : list Element) :
  to_gedcom_string (with_children self l) false = to_gedcom_string self false.
Proof. destruct self; reflexivity. Qed.

(** C8.  The serializer renders the own line of a node as
    [level [SP pointer] SP tag [SP value] terminator], the pointer and the
    value segments left out when empty, and as the empty string when the
    level is negative; the recursive rendering is the own line followed by
    the recursive renderings of the children, in order, nothing between
    them. *)
Theorem to_gedcom_string_contract (self : Element) :
  to_gedcom_string self false
  = (if (get_level self <? 0)%Z then ""
     else wire_line (get_level self) (get_pointer self) (get_tag self)
                    (get_value self) (__crlf self)) /\
  to_gedcom_string self true
  = to_gedcom_string self false ++
    String.concat ""
      (map (fun child => to_gedcom_string child true)
           (get_child_elements self)).
Proof.
  split; [apply to_gedcom_string_own|].
  destruct self as [cls lvl ptr tg val tm ch].
  change (to_gedcom_string (mkElement cls lvl ptr tg val tm ch) true)
    with (fold_left
            (fun result child => result ++ to_gedcom_string child true) ch
            (to_gedcom_string (mkElement cls lvl ptr tg val tm ch) false)).
  apply fold_left_append.
Qed.

(** ** The budget and the break point *)

Lemma available_characters_children (self : Element) (l : list Element) :
  __available_characters (with_children self l) = __available_characters self.
Proof.
  unfold __available_characters. now rewrite to_gedcom_string_children.
Qed.

Lemma available_characters_minus (self : Element) :
  __available_characters self = 255 - Py.len (to_gedcom_string self false).
Proof.
  unfold __available_characters.
  destruct (Nat.ltb_spec 255 (Py.len (to_gedcom_string self false))); lia.
Qed.

Lemma available_characters_empty_value (self : Element) :
  get_value self = "" ->
  __available_characters self
  = if (get_level self <? 0)%Z then 255
    else Nat.max 0 (255 - (Py.len (render_prefix self) + Py.len (__crlf self))).
Proof.
  intros Hv. rewrite available_characters_minus, to_gedcom_string_own.
  destruct (get_level self <? 0)%Z; [reflexivity|].
  assert (Hlen : Py.len (wire_line (get_level self) (get_pointer self)
                                   (get_tag self) (get_value self)
                                   (__crlf self))
                 = Py.len (render_prefix self) + Py.len (__crlf self)).
  { unfold wire_line, render_prefix. rewrite Hv.
    change ("" =? "")%string with true. cbv iota.
    rewrite !len_append. change (Py.len "") with 0. lia. }
  rewrite Hlen. lia.
Qed.

Lemma get_space (line : string) (i : nat) :
  match String.get i line with
  | Some c => Ascii.eqb c " "
  | None => false
  end = true <-> String.get i line = Some " "%char.
Proof.
  destruct (String.get i line) as [c|]; [|split; discriminate].
  rewrite Ascii.eqb_eq. split; congruence.
Qed.

Lemma line_length_while_spec (line : string) (available : nat) :
  forall rounds spaces,
    spaces + rounds = available ->
    (forall i, available - spaces <= i < available ->
               String.get i line = Some " "%char) ->
    let r := __line_length_while line available rounds spaces in
    spaces <= r <= available /\
    (forall i, available - r <= i < available ->
               String.get i line = Some " "%char) /\
    (r < available ->
     String.get (available - r - 1) line <> Some " "%char).
Proof.
  induction rounds as [|rounds IH]; intros spaces Hsum Hinv; simpl.
  - repeat split; try lia. exact Hinv.
  - destruct (Nat.ltb_spec spaces available) as [Hlt|Hge]; [|lia]. simpl.
    destruct (match String.get (available - spaces - 1) line with
              | Some c => Ascii.eqb c " "
              | None => false
              end) eqn:Hc.
    + apply get_space in Hc.
      destruct (IH (S spaces)) as (Hr & Hsp & Hstop); [lia| |].
      * intros i Hi.
        destruct (Nat.eq_dec i (available - spaces - 1)) as [->|Hne];
          [exact Hc|apply Hinv; lia].
      * repeat split; try lia; assumption.
    + repeat split; try lia; [exact Hinv|].
      intros _ Habs. apply get_space in Habs. congruence.
Qed.

Lemma line_length_spec (self : Element) (line : string) :
  break_point line (__available_characters self) (__line_length self line).
Proof.
  unfold __line_length. set (A := __available_characters self).
  destruct (Nat.leb_spec (Py.len line) A) as [Hfit|Hlong];
    [now constructor|].
  destruct (line_length_while_spec line A A 0) as (Hr & Hsp & Hstop);
    [lia|intros i Hi; lia|].
  set (r := __line_length_while line A A 0) in *.
  destruct (Nat.eqb_spec r A) as [Heq|Hne].
  - apply bp_all_spaces; [exact Hlong|]. intros i Hi. apply Hsp. lia.
  - apply bp_back_off; try lia.
    + apply Hstop. lia.
    + intros i Hi. apply Hsp. lia.
Qed.

Lemma line_length_le (self : Element) (line : string) :
  __line_length self line <= __available_characters self /\
  __line_length self line <= Py.len line.
Proof.
  pose proof (line_length_spec self line) as H.
  inversion H; lia.
Qed.

Lemma line_length_progress (self : Element) (line : string) :
  0 < __available_characters self -> 0 < Py.len line ->
  0 < __line_length self line.
Proof.
  intros HA Hl. pose proof (line_length_spec self line) as H.
  inversion H; lia.
Qed.

Lemma line_length_stuck (self : Element) (line : string) :
  __available_characters self = 0 -> __line_length self line = 0.
Proof.
  intros HA. pose proof (line_length_le self line). lia.
Qed.

(** ** The splitter: one child at a time *)

Lemma with_children_twice (self : Element) (a b : list Element) :
  with_children (with_children self a) b = with_children self b.
Proof. reflexivity. Qed.

Lemma with_children_same (self : Element) :
  with_children self (get_child_elements self) = self.
Proof. now destruct self. Qed.

Lemma blank_child_children (self : Element) (l : list Element) (tag : string) :
  blank_child (with_children self l) tag = blank_child self tag.
Proof. reflexivity. Qed.

Lemma blank_child_value (self : Element) (v tag : string) :
  blank_child (with_value self v) tag = blank_child self tag.
Proof. reflexivity. Qed.

Lemma add_bounded_child_step (fuel : nat) (self : Element) (tag value : string) :
  __add_bounded_child (set_multi_line_value (S fuel)) self tag value
  = Some (add_child_element self (bounded_child self tag value),
          __line_length (blank_child self tag) value).
Proof.
  unfold __add_bounded_child, new_child_element, __init__.
  change (set_multi_line_value (S fuel)
            (mkElement (new_child_class tag) (get_level self + 1) "" tag ""
                       (__crlf self) []) "")
    with (Some (blank_child self tag)).
  cbv beta iota. unfold __set_bounded_value, store_last_child, add_child_element.
  cbn [get_child_elements __children with_children].
  now rewrite removelast_last.
Qed.

Lemma add_bounded_child_no_fuel (self : Element) (tag value : string) :
  __add_bounded_child (set_multi_line_value 0) self tag value = None.
Proof. reflexivity. Qed.

Lemma bounded_child_chunk (self : Element) (tag value : string) :
  chunk_child self tag (bounded_child self tag value).
Proof.
  exists (Py.slice_to (__line_length (blank_child self tag) value) value).
  split; [reflexivity|]. rewrite len_slice_to.
  pose proof (line_length_le (blank_child self tag) value). lia.
Qed.

Lemma add_child_prepend (kept : list Element) (self child : Element) :
  add_child_element (prepend_children kept self) child
  = prepend_children kept (add_child_element self child).
Proof.
  unfold add_child_element, prepend_children.
  cbn [get_child_elements __children with_children].
  rewrite with_children_twice. now rewrite app_assoc.
Qed.

Lemma add_bounded_child_prepend (f : nat) (kept : list Element)
      (self : Element) (tag value : string) :
  __add_bounded_child (set_multi_line_value f) (prepend_children kept self)
                      tag value
  = match __add_bounded_child (set_multi_line_value f) self tag value with
    | Some (self', n) => Some (prepend_children kept self', n)
    | None => None
    end.
Proof.
  destruct f as [|f]; [reflexivity|].
  rewrite !add_bounded_child_step. now rewrite add_child_prepend.
Qed.

(** ** The splitter: the loops *)

Lemma add_concatenation_while_prepend (f : nat) (kept : list Element)
      (string : string) (size : nat) :
  forall fuel self index,
    __add_concatenation_while (set_multi_line_value f) fuel
                              (prepend_children kept self) string size index
    = option_map (prepend_children kept)
        (__add_concatenation_while (set_multi_line_value f) fuel self string
                                   size index).
Proof.
  induction fuel as [|fuel IH]; intros self index; simpl;
    destruct (index <? size); try reflexivity.
  rewrite add_bounded_child_prepend.
  destruct (__add_bounded_child (set_multi_line_value f) self
              GEDCOM_TAG_CONCATENATION (Py.slice_from index string))
    as [[self' n]|]; [apply IH|reflexivity].
Qed.

Lemma set_multi_line_value_for_prepend (f fuel : nat) (kept : list Element) :
  forall lines self,
    set_multi_line_value_for (set_multi_line_value f) fuel
                             (prepend_children kept self) lines
    = option_map (prepend_children kept)
        (set_multi_line_value_for (set_multi_line_value f) fuel self lines).
Proof.
  induction lines as [|line lines IH]; intros self; simpl; [reflexivity|].
  rewrite add_bounded_child_prepend.
  destruct (__add_bounded_child (set_multi_line_value f) self
              GEDCOM_TAG_CONTINUED line) as [[self1 n]|]; [|reflexivity].
  unfold __add_concatenation. rewrite add_concatenation_while_prepend.
  destruct (__add_concatenation_while (set_multi_line_value f) fuel self1
              (Py.slice_from n line) (Py.len (Py.slice_from n line)) 0)
    as [self2|]; simpl; [apply IH|reflexivity].
Qed.

Lemma line_length_prepend (kept : list Element) (self : Element)
      (line : string) :
  __line_length (prepend_children kept self) line = __line_length self line.
Proof.
  unfold __line_length, prepend_children.
  now rewrite !available_characters_children.
Qed.

(** The purge keeps the children that carry no reserved tag in front and
    the rest of the call never looks at them. *)
Lemma set_multi_line_value_prepend (fuel : nat) (self : Element)
      (value : string) :
  set_multi_line_value fuel self value
  = option_map
      (prepend_children (filter not_reserved (get_child_elements self)))
      (set_multi_line_value fuel (with_children self []) value).
Proof.
  destruct fuel as [|fuel]; [reflexivity|]. simpl.
  unfold set_multi_line_value_body.
  cbn [get_child_elements __children with_children set_value with_value filter].
  destruct (Py.splitlines value) as [|line lines].
  - simpl. unfold prepend_children. simpl. now rewrite app_nil_r.
  - unfold __set_bounded_value, get_child_elements.
    set (kept := filter not_reserved (__children self)).
    set (bare := with_children (with_value self "") []).
    assert (Hk : with_children (set_value self "") kept
                 = prepend_children kept bare).
    { unfold prepend_children, bare. simpl. now rewrite app_nil_r. }
    rewrite Hk, line_length_prepend.
    change (with_children (set_value (with_children self []) "") [])
      with bare. set (n := __line_length bare line).
    cbv beta iota zeta.
    change (set_value (prepend_children kept bare) (Py.slice_to n line))
      with (prepend_children kept (set_value bare (Py.slice_to n line))).
    unfold __add_concatenation. rewrite add_concatenation_while_prepend.
    destruct (__add_concatenation_while (set_multi_line_value fuel) fuel
                (set_value bare (Py.slice_to n line)) (Py.slice_from n line)
                (Py.len (Py.slice_from n line)) 0) as [self1|];
      simpl; [apply set_multi_line_value_for_prepend|reflexivity].
Qed.

Lemma chunk_child_same (self self' : Element) (tag : string) (c : Element) :
  get_level self' = get_level self -> __crlf self' = __crlf self ->
  chunk_child self' tag c -> chunk_child self tag c.
Proof.
  unfold chunk_child, blank_child. intros -> ->. exact (fun H => H).
Qed.

(** What one [__add_concatenation] loop leaves behind when it returns: the
    element with new children at the end of its list, each a concatenation
    child within its budget, their values the rest of the string. *)
Lemma add_concatenation_while_structure (f : nat) (string : string) :
  forall fuel self index self',
    __add_concatenation_while (set_multi_line_value f) fuel self string
                              (Py.len string) index = Some self' ->
    exists gen,
      self' = with_children self (get_child_elements self ++ gen) /\
      Forall (chunk_child self GEDCOM_TAG_CONCATENATION) gen /\
      values_text gen = Py.slice_from index string.
Proof.
  induction fuel as [|fuel IH]; intros self index self'; simpl;
    destruct (Nat.ltb_spec index (Py.len string)) as [Hlt|Hge];
    try discriminate.
  - intros [= <-]. exists []. rewrite app_nil_r, with_children_same.
    repeat split; [constructor|]. simpl.
    symmetry. apply len_zero_empty. rewrite len_slice_from. lia.
  - destruct f as [|f]; [discriminate|].
    rewrite add_bounded_child_step. intros Hrun.
    apply IH in Hrun. destruct Hrun as (gen & -> & Hgen & Htext).
    set (rest := Py.slice_from index string) in *.
    exists (bounded_child self GEDCOM_TAG_CONCATENATION rest :: gen).
    split; [|split].
    + unfold add_child_element.
      cbn [get_child_elements __children with_children].
      rewrite with_children_twice. now rewrite <- app_assoc.
    + constructor; [apply bounded_child_chunk|].
      eapply Forall_impl; [|exact Hgen]. intros c. now apply chunk_child_same.
    + simpl. rewrite Htext. unfold get_value, bounded_child. simpl.
      rewrite <- slice_from_add. fold rest. apply slice_to_from.
  - intros [= <-]. exists []. rewrite app_nil_r, with_children_same.
    repeat split; [constructor|]. simpl.
    symmetry. apply len_zero_empty. rewrite len_slice_from. lia.
Qed.

(** With a positive budget for the concatenation children every round of
    the loop consumes a character: the characters left bound the rounds. *)
Lemma add_concatenation_while_returns (f : nat) (string : string) :
  forall fuel self index,
    0 < concatenation_budget self ->
    Py.len string - index <= fuel ->
    exists self',
      __add_concatenation_while (set_multi_line_value (S f)) fuel self string
                                (Py.len string) index = Some self'.
Proof.
  induction fuel as [|fuel IH]; intros self index Hb Hfuel;
    cbn [__add_concatenation_while];
    destruct (Nat.ltb_spec index (Py.len string)) as [Hlt|Hge];
    try (eexists; reflexivity); [lia|].
  rewrite add_bounded_child_step. apply IH; [exact Hb|].
  pose proof (line_length_progress
                (blank_child self GEDCOM_TAG_CONCATENATION)
                (Py.slice_from index string) Hb) as Hp.
  rewrite len_slice_from in Hp. lia.
Qed.

(** With no budget for the concatenation children a round of the loop
    adds an empty child and consumes nothing: the loop never ends. *)
Lemma add_concatenation_while_diverges (f : nat) (string : string)
      (index : nat) :
  index < Py.len string ->
  forall fuel self,
    concatenation_budget self = 0 ->
    __add_concatenation_while (set_multi_line_value f) fuel self string
                              (Py.len string) index = None.
Proof.
  intros Hlt. induction fuel as [|fuel IH]; intros self Hb; simpl;
    destruct (Nat.ltb_spec index (Py.len string)) as [_|Hge];
    try lia; [reflexivity|].
  destruct f as [|f]; [reflexivity|].
  rewrite add_bounded_child_step.
  rewrite (line_length_stuck _ _ Hb), Nat.add_0_r. apply IH. exact Hb.
Qed.

(** ** The lines of a string *)

Lemma splitlines_nil (s : string) : Py.splitlines s = [] -> s = "".
Proof.
  destruct s as [|c s]; [reflexivity|]. simpl.
  destruct (Py.is_line_boundary c).
  - destruct s as [|c' s]; [discriminate|].
    destruct (Ascii.eqb c Py.CR && Ascii.eqb c' Py.LF); discriminate.
  - destruct (Py.splitlines s); discriminate.
Qed.

Lemma splitlines_len_bounded (n : nat) :
  forall s, Py.len s <= n ->
    Forall (fun line =>
              Py.len line + (if Py.has_line_boundary s then 1 else 0)
              <= Py.len s)
           (Py.splitlines s).
Proof.
  induction n as [|n IH]; intros [|c s] Hn; simpl in *; try constructor;
    try lia.
  assert (IHs : Forall (fun line => Py.len line <= Py.len s)
                       (Py.splitlines s)).
  { eapply Forall_impl; [|apply IH; lia]. simpl. intros line. lia. }
  destruct (Py.is_line_boundary c) eqn:Hc; simpl.
  - destruct s as [|c' s']; [repeat constructor; simpl; lia|].
    destruct (Ascii.eqb c Py.CR && Ascii.eqb c' Py.LF).
    + constructor; [simpl; lia|].
      eapply Forall_impl; [|apply (IH s'); simpl in *; lia].
      simpl. intros line. lia.
    + constructor; [simpl; lia|].
      eapply Forall_impl; [|exact IHs]. simpl. intros line. lia.
  - pose proof (IH s ltac:(lia)) as IHb.
    destruct (Py.splitlines s) as [|line lines] eqn:Hs.
    + apply splitlines_nil in Hs. subst s. repeat constructor.
    + inversion IHb as [|? ? Hline Hlines]; subst.
      constructor; [simpl in *; lia|].
      eapply Forall_impl; [|exact Hlines]. simpl. intros l. lia.
Qed.

Lemma splitlines_len (s : string) :
  Forall (fun line =>
            Py.len line + (if Py.has_line_boundary s then 1 else 0)
            <= Py.len s)
         (Py.splitlines s).
Proof. apply (splitlines_len_bounded (Py.len s)). lia. Qed.

Lemma join_lines_text (crlf line : string) (lines : list string) :
  Py.join crlf (line :: lines) = line ++ lines_text crlf lines.
Proof.
  unfold Py.join. revert line.
  induction lines as [|l lines IH]; intros line.
  - simpl. now rewrite append_empty_r.
  - change (String.concat crlf (line :: l :: lines))
      with (line ++ crlf ++ String.concat crlf (l :: lines)).
    now rewrite IH.
Qed.

(** ** The joiner over the children the splitter generates *)

Lemma get_multi_line_value_for_app (a b : list Element)
      (state : string * string) :
  get_multi_line_value_for (a ++ b) state
  = get_multi_line_value_for b (get_multi_line_value_for a state).
Proof. apply fold_left_app. Qed.

Lemma get_multi_line_value_for_kept (kept : list Element)
      (state : string * string) :
  Forall (fun child => not_reserved child = true) kept ->
  get_multi_line_value_for kept state = state.
Proof.
  intros H. revert state.
  induction H as [|child kept Hc _ IH]; intros [result last]; [reflexivity|].
  unfold get_multi_line_value_for in *. simpl.
  unfold not_reserved in Hc. apply negb_true_iff, orb_false_iff in Hc.
  destruct Hc as [-> ->]. apply IH.
Qed.

Lemma filter_not_reserved (l : list Element) :
  Forall (fun child => not_reserved child = true) (filter not_reserved l).
Proof. apply Forall_forall. intros c Hc. now apply filter_In in Hc. Qed.

Lemma get_multi_line_value_for_concatenation (self : Element)
      (gen : list Element) :
  reserved_tags_plain ->
  Forall (chunk_child self GEDCOM_TAG_CONCATENATION) gen ->
  forall result,
    get_multi_line_value_for gen (result, __crlf self)
    = (result ++ values_text gen, __crlf self).
Proof.
  intros (_ & Hconc & _) Hgen.
  induction Hgen as [|c gen (v & -> & _) _ IH]; intros result.
  - simpl. now rewrite append_empty_r.
  - unfold get_multi_line_value_for in *. simpl.
    unfold get_tag. simpl. rewrite Hconc, String.eqb_refl.
    rewrite IH. unfold get_value. simpl. now rewrite append_assoc.
Qed.

Lemma get_multi_line_value_for_continued (self : Element) (v : string)
      (result : string) (rest : list Element) :
  reserved_tags_plain ->
  get_multi_line_value_for
    (with_value (blank_child self GEDCOM_TAG_CONTINUED) v :: rest)
    (result, __crlf self)
  = get_multi_line_value_for rest (result ++ __crlf self ++ v, __crlf self).
Proof.
  intros (Hneq & _ & Hcont).
  unfold get_multi_line_value_for. simpl. unfold get_tag. simpl.
  rewrite Hcont, String.eqb_refl.
  destruct (String.eqb_spec GEDCOM_TAG_CONTINUED GEDCOM_TAG_CONCATENATION)
    as [Heq|_]; [now elim Hneq|reflexivity].
Qed.

(** ** The splitter: the whole call *)

Lemma generated_under_same (self self' c : Element) :
  get_level self' = get_level self -> __crlf self' = __crlf self ->
  generated_under self' c -> generated_under self c.
Proof.
  intros Hl Hc [H|H]; [left|right]; eapply chunk_child_same; eassumption.
Qed.

(** What the [for line in lines] loop leaves behind when it returns. *)
Lemma set_multi_line_value_for_structure (f fuel : nat) :
  forall lines self self',
    set_multi_line_value_for (set_multi_line_value f) fuel self lines
    = Some self' ->
    exists gen,
      self' = with_children self (get_child_elements self ++ gen) /\
      Forall (generated_under self) gen /\
      (reserved_tags_plain ->
       forall result,
         get_multi_line_value_for gen (result, __crlf self)
         = (result ++ lines_text (__crlf self) lines, __crlf self)).
Proof.
  induction lines as [|line lines IH]; intros self self'.
  - intros [= <-]. exists []. rewrite app_nil_r, with_children_same.
    repeat split; [constructor|]. intros _ result. simpl.
    now rewrite append_empty_r.
  - cbn [set_multi_line_value_for].
    destruct f as [|f]; [discriminate|]. rewrite add_bounded_child_step.
    set (cont := bounded_child self GEDCOM_TAG_CONTINUED line).
    set (n := __line_length (blank_child self GEDCOM_TAG_CONTINUED) line).
    unfold __add_concatenation.
    destruct (__add_concatenation_while (set_multi_line_value (S f)) fuel
                (add_child_element self cont) (Py.slice_from n line)
                (Py.len (Py.slice_from n line)) 0) as [self1|] eqn:Hloop;
      [|discriminate].
    apply add_concatenation_while_structure in Hloop.
    destruct Hloop as (g1 & -> & Hg1 & Ht1).
    intros Hrest. apply IH in Hrest. destruct Hrest as (g2 & -> & Hg2 & Ht2).
    exists (cont :: g1 ++ g2). split; [|split].
    + unfold add_child_element.
      cbn [get_child_elements __children with_children].
      rewrite !with_children_twice. f_equal.
      now rewrite <- !app_assoc.
    + constructor; [right; apply bounded_child_chunk|].
      apply Forall_app. split.
      * eapply Forall_impl; [|exact Hg1]. intros c Hc. left.
        eapply chunk_child_same; [| |exact Hc]; reflexivity.
      * eapply Forall_impl; [|exact Hg2]. intros c.
        now apply generated_under_same.
    + intros Htags result.
      assert (Hg1' : Forall (chunk_child self GEDCOM_TAG_CONCATENATION) g1).
      { eapply Forall_impl; [|exact Hg1]. intros c Hc.
        eapply chunk_child_same; [| |exact Hc]; reflexivity. }
      specialize (Ht2 Htags).
      cbn [with_children add_child_element __crlf] in Ht2.
      transitivity
        (get_multi_line_value_for (g1 ++ g2)
           (result ++ __crlf self ++ Py.slice_to n line, __crlf self)).
      { exact (get_multi_line_value_for_continued
                 self (Py.slice_to n line) result (g1 ++ g2) Htags). }
      rewrite get_multi_line_value_for_app.
      rewrite (get_multi_line_value_for_concatenation self g1 Htags Hg1').
      rewrite Ht2, Ht1. simpl lines_text. simpl Py.slice_from. f_equal.
      rewrite !append_assoc. do 2 f_equal.
      rewrite <- append_assoc. f_equal. apply slice_to_from.
Qed.

(** What [set_multi_line_value] leaves behind when it returns: the head of
    the first line on the element itself, the children without a reserved
    tag in front, then the generated children, which the joiner reads back
    as the lines joined by the terminator of the element. *)
Lemma set_multi_line_value_structure (fuel : nat) (self : Element)
      (value : string) (self' : Element) :
  set_multi_line_value fuel self value = Some self' ->
  exists gen,
    self' = with_children (with_value self (first_chunk self value))
              (filter not_reserved (get_child_elements self) ++ gen) /\
    Forall (generated_under self) gen /\
    (reserved_tags_plain ->
     get_multi_line_value_for gen (first_chunk self value, __crlf self)
     = (Py.join (__crlf self) (Py.splitlines value), __crlf self)).
Proof.
  destruct fuel as [|fuel]; [discriminate|]. cbn [set_multi_line_value].
  unfold set_multi_line_value_body, first_chunk.
  set (kept := filter not_reserved (get_child_elements self)).
  change (filter not_reserved (get_child_elements (set_value self "")))
    with kept.
  destruct (Py.splitlines value) as [|line lines].
  - intros [= <-]. exists []. rewrite app_nil_r.
    split; [reflexivity|split; [constructor|intros _; reflexivity]].
  - unfold __set_bounded_value.
    assert (Hn : __line_length (with_children (set_value self "") kept) line
                 = __line_length (with_value self "") line).
    { unfold __line_length. now rewrite available_characters_children. }
    rewrite Hn. set (n := __line_length (with_value self "") line).
    cbv beta iota zeta. unfold __add_concatenation.
    destruct (__add_concatenation_while (set_multi_line_value fuel) fuel
                (set_value (with_children (set_value self "") kept)
                           (Py.slice_to n line))
                (Py.slice_from n line) (Py.len (Py.slice_from n line)) 0)
      as [self1|] eqn:Hloop; [|discriminate].
    apply add_concatenation_while_structure in Hloop.
    destruct Hloop as (g1 & -> & Hg1 & Ht1).
    intros Hrest. apply set_multi_line_value_for_structure in Hrest.
    destruct Hrest as (g2 & -> & Hg2 & Ht2).
    exists (g1 ++ g2)%list. split; [|split].
    + cbn [get_child_elements __children with_children set_value with_value].
      now rewrite app_assoc.
    + apply Forall_app. split.
      * eapply Forall_impl; [|exact Hg1]. intros c Hc. left.
        eapply chunk_child_same; [| |exact Hc]; reflexivity.
      * eapply Forall_impl; [|exact Hg2]. intros c.
        now apply generated_under_same.
    + intros Htags.
      assert (Hg1' : Forall (chunk_child self GEDCOM_TAG_CONCATENATION) g1).
      { eapply Forall_impl; [|exact Hg1]. intros c Hc.
        eapply chunk_child_same; [| |exact Hc]; reflexivity. }
      specialize (Ht2 Htags).
      cbn [with_children set_value with_value __crlf] in Ht2.
      rewrite get_multi_line_value_for_app.
      rewrite (get_multi_line_value_for_concatenation self g1 Htags Hg1').
      rewrite Ht2, Ht1, join_lines_text. simpl Py.slice_from.
      now rewrite slice_to_from.
Qed.

Lemma set_multi_line_value_S (fuel : nat) (self : Element) (value : string) :
  set_multi_line_value (S fuel) self value
  = set_multi_line_value_body (set_multi_line_value fuel) fuel self value.
Proof. reflexivity. Qed.

Lemma concatenation_budget_structure (self : Element) (v : string)
      (l : list Element) :
  concatenation_budget (with_children (with_value self v) l)
  = concatenation_budget self.
Proof. reflexivity. Qed.

Lemma set_multi_line_value_for_returns (f fuel : nat) :
  forall lines self,
    0 < concatenation_budget self ->
    Forall (fun line => Py.len line <= fuel) lines ->
    exists self',
      set_multi_line_value_for (set_multi_line_value (S f)) fuel self lines
      = Some self'.
Proof.
  induction lines as [|line lines IH]; intros self Hb Hlen;
    [eexists; reflexivity|].
  inversion Hlen as [|? ? Hline Hlines]; subst.
  cbn [set_multi_line_value_for]. rewrite add_bounded_child_step.
  set (self1 := add_child_element self
                  (bounded_child self GEDCOM_TAG_CONTINUED line)).
  set (n := __line_length (blank_child self GEDCOM_TAG_CONTINUED) line).
  unfold __add_concatenation.
  destruct (add_concatenation_while_returns f (Py.slice_from n line) fuel
              self1 0) as [self2 Hloop]; [exact Hb| |].
  { rewrite len_slice_from. lia. }
  rewrite Hloop. apply IH; [|exact Hlines].
  apply add_concatenation_while_structure in Hloop.
  destruct Hloop as (g & -> & _). exact Hb.
Qed.

(** With a positive budget for the concatenation children the call
    returns, on the fuel [enough_fuel value]. *)
Lemma set_multi_line_value_returns (self : Element) (value : string) :
  0 < concatenation_budget self ->
  exists self',
    set_multi_line_value (enough_fuel value) self value = Some self'.
Proof.
  intros Hb. unfold enough_fuel.
  change (2 + Py.len value) with (S (S (Py.len value))).
  rewrite set_multi_line_value_S. unfold set_multi_line_value_body.
  pose proof (splitlines_len value) as Hlen.
  destruct (Py.splitlines value) as [|line lines];
    [eexists; reflexivity|].
  inversion Hlen as [|? ? Hline Hlines]; subst.
  unfold __set_bounded_value. cbv beta iota zeta.
  set (self0 := with_children (set_value self "")
                  (filter not_reserved
                          (get_child_elements (set_value self "")))).
  set (n := __line_length self0 line). unfold __add_concatenation.
  destruct (add_concatenation_while_returns (Py.len value)
              (Py.slice_from n line) (S (Py.len value))
              (set_value self0 (Py.slice_to n line)) 0)
    as [self1 Hloop]; [exact Hb| |].
  { rewrite len_slice_from. lia. }
  rewrite Hloop. apply set_multi_line_value_for_returns.
  - apply add_concatenation_while_structure in Hloop.
    destruct Hloop as (g & -> & _). exact Hb.
  - eapply Forall_impl; [|exact Hlines]. simpl. intros l. lia.
Qed.

Lemma generated_reserved (self c : Element) :
  reserved_tags_plain -> generated_under self c -> not_reserved c = false.
Proof.
  intros (_ & Hconc & Hcont) [(v & -> & _)|(v & -> & _)];
    unfold not_reserved, get_tag; simpl.
  - now rewrite Hconc, String.eqb_refl.
  - rewrite Hcont, String.eqb_refl. now rewrite orb_true_r.
Qed.

Lemma filter_generated (self : Element) (gen : list Element) :
  reserved_tags_plain -> Forall (generated_under self) gen ->
  filter not_reserved gen = [].
Proof.
  intros Htags H. induction H as [|c gen Hc _ IH]; [reflexivity|].
  simpl. now rewrite (generated_reserved self c Htags Hc).
Qed.

Lemma filter_filter_not_reserved (l : list Element) :
  filter not_reserved (filter not_reserved l) = filter not_reserved l.
Proof.
  induction l as [|c l IH]; [reflexivity|]. simpl.
  destruct (not_reserved c) eqn:Hc; simpl; [rewrite Hc|]; now rewrite ?IH.
Qed.

Lemma first_chunk_bounded (self : Element) (value : string) :
  Py.len (first_chunk self value) <= __available_characters (with_value self "").
Proof.
  unfold first_chunk. destruct (Py.splitlines value) as [|line lines];
    [simpl; lia|].
  rewrite len_slice_to.
  pose proof (line_length_le (with_value self "") line). lia.
Qed.

Lemma first_chunk_shorter (self : Element) (value : string) :
  Py.len (first_chunk self value)
  + (if Py.has_line_boundary value then 1 else 0) <= Py.len value.
Proof.
  unfold first_chunk. pose proof (splitlines_len value) as H.
  destruct (Py.splitlines value) as [|line lines].
  - simpl. destruct value as [|c value]; simpl; [lia|].
    destruct (Py.is_line_boundary c || Py.has_line_boundary value); lia.
  - inversion H as [|? ? Hline _]; subst. rewrite len_slice_to. lia.
Qed.

(** The line of a node whose value was cut to the budget it had with an
    empty value. *)
Lemma line_characters_bound (node : Element) :
  Py.len (get_value node) <= __available_characters (with_value node "") ->
  __crlf node <> "" ->
  Py.len (render_prefix node) <= 255 ->
  line_characters node <= 255.
Proof.
  intros Hv Hcrlf Hp. unfold line_characters.
  rewrite (available_characters_empty_value (with_value node "")) in Hv
    by reflexivity.
  change (get_level (with_value node "")) with (get_level node) in Hv.
  change (render_prefix (with_value node "")) with (render_prefix node) in Hv.
  change (__crlf (with_value node "")) with (__crlf node) in Hv.
  rewrite to_gedcom_string_own.
  destruct (get_level node <? 0)%Z; [simpl; lia|].
  assert (Hcr : 0 < Py.len (__crlf node)).
  { destruct (__crlf node); [now elim Hcrlf|simpl; lia]. }
  unfold wire_line. fold (render_prefix node) in *.
  assert (Hw : Py.len
                 (Py.str (get_level node) ++
                  (if (get_pointer node =? "")%string then ""
                   else " " ++ get_pointer node) ++
                  " " ++ get_tag node ++
                  (if (get_value node =? "")%string then ""
                   else " " ++ get_value node) ++ __crlf node)
               = Py.len (render_prefix node)
                 + (if (get_value node =? "")%string then 0
                    else 1 + Py.len (get_value node))
                 + Py.len (__crlf node)).
  { unfold render_prefix. rewrite !len_append.
    destruct (get_value node =? "")%string; rewrite ?len_append;
      change (Py.len "") with 0; change (Py.len " ") with 1; lia. }
  rewrite Hw, eqb_empty_len.
  destruct (Nat.eqb_spec (Py.len (get_value node)) 0); lia.
Qed.

Lemma generated_line_bound (self c : Element) :
  __crlf self <> "" -> generated_under self c ->
  Py.len (render_prefix c) <= 255 -> line_characters c <= 255.
Proof.
  intros Hcrlf [(v & -> & Hv)|(v & -> & Hv)]; apply line_characters_bound;
    assumption.
Qed.

Lemma generated_leaf (self c : Element) :
  generated_under self c ->
  get_child_elements c = [] /\ get_level c = (get_level self + 1)%Z /\
  get_pointer c = "" /\ __crlf c = __crlf self.
Proof. now intros [(v & -> & _)|(v & -> & _)]. Qed.

Lemma set_multi_line_value_diverges (self : Element) (value line : string)
      (lines : list string) :
  concatenation_budget self = 0 ->
  Py.splitlines value = line :: lines ->
  __available_characters (with_value self "") < Py.len line ->
  forall fuel, set_multi_line_value fuel self value = None.
Proof.
  intros Hb Hlines Hlong [|fuel]; [reflexivity|].
  rewrite set_multi_line_value_S. unfold set_multi_line_value_body.
  rewrite Hlines. unfold __set_bounded_value. cbv beta iota zeta.
  set (self0 := with_children (set_value self "")
                  (filter not_reserved
                          (get_child_elements (set_value self "")))).
  set (n := __line_length self0 line).
  assert (Hn : n <= __available_characters (with_value self "")).
  { unfold n, self0. pose proof (line_length_le
      (with_children (set_value self "")
         (filter not_reserved (get_child_elements (set_value self ""))))
      line) as H.
    rewrite available_characters_children in H. exact (proj1 H). }
  unfold __add_concatenation.
  rewrite add_concatenation_while_diverges; [reflexivity| |exact Hb].
  rewrite len_slice_from. lia.
Qed.

Lemma get_multi_line_value_after_set (fuel : nat) (self : Element)
      (value : string) (self' : Element) :
  reserved_tags_plain ->
  set_multi_line_value fuel self value = Some self' ->
  get_multi_line_value self'
  = Py.join (__crlf self) (Py.splitlines value).
Proof.
  intros Htags Hrun. apply set_multi_line_value_structure in Hrun.
  destruct Hrun as (gen & -> & _ & Htext).
  unfold get_multi_line_value.
  cbn [get_child_elements get_value with_children with_value
       __children __value __crlf].
  rewrite get_multi_line_value_for_app.
  rewrite (get_multi_line_value_for_kept
             (filter not_reserved (get_child_elements self)))
    by apply filter_not_reserved.
  now rewrite (Htext Htags).
Qed.

(** ** The properties of the codec *)

(** C1, as the code has it.  When the reserved tags are plain and the
    concatenation children of the node have a positive budget,
    [set_multi_line_value(v)] returns, and [get_multi_line_value] then
    returns the lines of [v], as [splitlines] cuts them, joined by the
    line terminator of the node: [v] itself when [v] is that join. *)
Theorem set_then_get_multi_line_value (self : Element) (value : string) :
  reserved_tags_plain ->
  0 < concatenation_budget self ->
  (exists self',
     set_multi_line_value (enough_fuel value) self value = Some self') /\
  (forall fuel self',
     set_multi_line_value fuel self value = Some self' ->
     get_multi_line_value self'
     = Py.join (__crlf self) (Py.splitlines value) /\
     (Py.join (__crlf self) (Py.splitlines value) = value ->
      get_multi_line_value self' = value)).
Proof.
  intros Htags Hb. split; [now apply set_multi_line_value_returns|].
  intros fuel self' Hrun.
  apply set_multi_line_value_structure in Hrun.
  destruct Hrun as (gen & -> & _ & Htext).
  assert (Hget : get_multi_line_value
                   (with_children (with_value self (first_chunk self value))
                      (filter not_reserved (get_child_elements self) ++ gen))
                 = Py.join (__crlf self) (Py.splitlines value)).
  { unfold get_multi_line_value.
    cbn [get_child_elements get_value with_children with_value
         __children __value __crlf].
    rewrite get_multi_line_value_for_app.
    rewrite (get_multi_line_value_for_kept
               (filter not_reserved (get_child_elements self)))
      by apply filter_not_reserved.
    now rewrite (Htext Htags). }
  split; [exact Hget|]. intros Hjoin. now rewrite Hget.
Qed.

(** C2, as the code has it.  After [set_multi_line_value] on a node with
    a line terminator that is not empty, the node and every child the call
    generated render, the terminator left out, in at most 255 characters
    each, provided the prefix alone (level, pointer, tag and separators)
    has at most 255. *)
Theorem split_lines_within_bound (self : Element) (value : string) :
  __crlf self <> "" ->
  (0 < concatenation_budget self ->
   exists self',
     set_multi_line_value (enough_fuel value) self value = Some self') /\
  (forall fuel self',
     set_multi_line_value fuel self value = Some self' ->
     exists gen,
       get_child_elements self'
       = (filter not_reserved (get_child_elements self) ++ gen)%list /\
       Forall (fun node => Py.len (render_prefix node) <= 255 ->
                           line_characters node <= 255)
              (self' :: gen)).
Proof.
  intros Hcrlf. split; [apply set_multi_line_value_returns|].
  intros fuel self' Hrun.
  apply set_multi_line_value_structure in Hrun.
  destruct Hrun as (gen & -> & Hgen & _).
  exists gen. split; [reflexivity|]. constructor.
  - apply line_characters_bound; [|exact Hcrlf].
    cbn [get_value with_children with_value __value].
    change (with_value
              (with_children (with_value self (first_chunk self value))
                 (filter not_reserved (get_child_elements self) ++ gen)) "")
      with (with_children (with_value self "")
              (filter not_reserved (get_child_elements self) ++ gen)).
    rewrite available_characters_children. apply first_chunk_bounded.
  - eapply Forall_impl; [|exact Hgen]. intros c.
    now apply generated_line_bound.
Qed.

(** C3, as the code has it.  Every child [set_multi_line_value] generates,
    also the overflow of an overflow, is appended to the children of the
    node itself, one level below it, and has no children of its own: the
    generated nodes are a flat list of siblings. *)
Theorem overflow_children_are_siblings (self : Element) (value : string) :
  (0 < concatenation_budget self ->
   exists self',
     set_multi_line_value (enough_fuel value) self value = Some self') /\
  (forall fuel self',
     set_multi_line_value fuel self value = Some self' ->
     exists gen,
       get_child_elements self'
       = (filter not_reserved (get_child_elements self) ++ gen)%list /\
       Forall (fun child =>
                 generated_under self child /\
                 get_level child = (get_level self + 1)%Z /\
                 get_child_elements child = [])
              gen).
Proof.
  split; [apply set_multi_line_value_returns|].
  intros fuel self' Hrun.
  apply set_multi_line_value_structure in Hrun.
  destruct Hrun as (gen & -> & Hgen & _).
  exists gen. split; [reflexivity|].
  eapply Forall_impl; [|exact Hgen]. intros c Hc.
  destruct (generated_leaf self c Hc) as (Hch & Hlvl & _).
  now repeat split.
Qed.

(** C4.  After [set_multi_line_value] the children of the node are its
    former children without a reserved tag, untouched and in their order,
    followed by what the same call generates on the node stripped of all
    its children: no continuation or concatenation child of an earlier call
    is left. *)
Theorem purge_on_reset (self : Element) (value : string) :
  reserved_tags_plain ->
  (0 < concatenation_budget self ->
   exists self',
     set_multi_line_value (enough_fuel value) self value = Some self') /\
  (forall fuel self',
     set_multi_line_value fuel self value = Some self' ->
     exists fresh,
       set_multi_line_value fuel (with_children self []) value = Some fresh /\
       get_child_elements self'
       = (filter not_reserved (get_child_elements self)
          ++ get_child_elements fresh)%list /\
       filter not_reserved (get_child_elements fresh) = [] /\
       filter not_reserved (get_child_elements self')
       = filter not_reserved (get_child_elements self)).
Proof.
  intros Htags. split; [apply set_multi_line_value_returns|].
  intros fuel self' Hrun.
  rewrite set_multi_line_value_prepend in Hrun.
  destruct (set_multi_line_value fuel (with_children self []) value)
    as [fresh|] eqn:Hfresh; [|discriminate].
  injection Hrun as <-. exists fresh. split; [reflexivity|].
  apply set_multi_line_value_structure in Hfresh.
  destruct Hfresh as (gen & -> & Hgen & _).
  cbn [prepend_children get_child_elements with_children with_value
       __children filter app].
  assert (Hnone : filter not_reserved gen = [])
    by (eapply filter_generated; eassumption).
  repeat split; [exact Hnone|].
  now rewrite filter_app, filter_filter_not_reserved, Hnone, app_nil_r.
Qed.

(** C5, as the code has it.  When the value of a node is empty, as it is
    whenever the splitter asks, the budget is 255 minus the length of the
    prefix and of the line terminator together, or 0 when that is negative;
    a node of negative level renders as the empty string and has the
    budget 255. *)
Theorem available_characters_counts_terminator (self : Element) :
  get_value self = "" ->
  __available_characters self
  = if (get_level self <? 0)%Z then 255
    else Nat.max 0 (255 - (Py.len (render_prefix self) + Py.len (__crlf self))).
Proof. apply available_characters_empty_value. Qed.

(** C6.  The length [__line_length] returns is the break point of the
    specification for the budget of the node: the length of the candidate
    when it fits; else the budget itself when the whole window is spaces;
    else the position after the last character before the run of spaces
    that ends the window.  It is 0 for a candidate longer than the budget
    only when every character of the window is a space. *)
Theorem line_length_break_point (self : Element) (line : string) :
  break_point line (__available_characters self) (__line_length self line) /\
  (__available_characters self < Py.len line ->
   __line_length self line = 0 ->
   forall i, i < __available_characters self ->
             String.get i line = Some " "%char).
Proof.
  pose proof (line_length_spec self line) as H.
  split; [exact H|]. intros Hlong H0.
  inversion H as [Hfit Heq|_ Hall Heq|n _ Hn _ _ Heq]; [lia|exact Hall|lia].
Qed.

(** C10.  The constructor with [multi_line] set applies the splitter to
    its value argument.  When the value contains a line boundary or is
    longer than the budget of the element, the value of the new element is
    the bounded head of the first line and differs from the argument; its
    children are the generated continuation and concatenation children,
    which hold the rest: when the reserved tags are plain, the multi-line
    value of the new element is the lines of the argument joined by the
    line terminator. *)
Theorem constructor_keeps_first_chunk (cls : ElementClass) (level : Z)
        (pointer tag value crlf : string) :
  let cleared := mkElement cls level pointer tag "" crlf [] in
  Py.has_line_boundary value = true \/
  __available_characters cleared < Py.len value ->
  (0 < concatenation_budget cleared ->
   exists e,
     Element_new (enough_fuel value) cls level pointer tag value crlf true
     = Some e) /\
  (forall fuel e,
     Element_new fuel cls level pointer tag value crlf true = Some e ->
     (exists line lines,
        Py.splitlines value = line :: lines /\
        get_value e = Py.slice_to (__line_length cleared line) line) /\
     get_value e <> value /\
     Forall (generated_under cleared) (get_child_elements e) /\
     (reserved_tags_plain ->
      get_multi_line_value e = Py.join crlf (Py.splitlines value))).
Proof.
  intros cleared Hlong.
  set (self := mkElement cls level pointer tag value crlf []).
  split.
  - intros Hb. apply (set_multi_line_value_returns self value Hb).
  - intros fuel e Hrun. unfold Element_new, __init__ in Hrun.
    assert (Hjoin : reserved_tags_plain ->
                    get_multi_line_value e
                    = Py.join crlf (Py.splitlines value)).
    { intros Htags.
      exact (get_multi_line_value_after_set fuel self value e Htags Hrun). }
    apply set_multi_line_value_structure in Hrun.
    destruct Hrun as (gen & -> & Hgen & _).
    cbn [get_value get_child_elements with_children with_value
         __value __children].
    pose proof (first_chunk_bounded self value) as Hfit.
    pose proof (first_chunk_shorter self value) as Hshort.
    change (with_value self "") with cleared in Hfit.
    split; [|split; [|split]].
    + unfold first_chunk in *.
      destruct (Py.splitlines value) as [|line lines] eqn:Hlines.
      * apply splitlines_nil in Hlines. subst value.
        destruct Hlong as [Hl|Hl]; [discriminate|simpl in Hl; lia].
      * exists line, lines. split; reflexivity.
    + intros Heq. apply (f_equal Py.len) in Heq.
      change (Py.len (first_chunk self value) = Py.len value) in Heq.
      destruct Hlong as [Hl|Hl]; [rewrite Hl in Hshort|]; lia.
    + exact Hgen.
    + exact Hjoin.
Qed.

(** ** The record accessor of [SourceElement] *)

(** C9.  [get_repository_pointer] returns the empty string whatever the
    children are: the loop assigns the value of a repository child to the
    local [reference] and the method returns [repository_pointer]. *)
Theorem get_repository_pointer_empty (self : Element) :
  get_repository_pointer self = "".
Proof.
  unfold get_repository_pointer.
  generalize (@None string). generalize (get_child_elements self).
  induction l as [|child l IH]; intros reference; simpl; [reflexivity|].
  destruct (get_tag child =? GEDCOM_TAG_REPOSITORY)%string; apply IH.
Qed.

(** ** Further properties of the codec *)

Lemma slice_to_all (s : string) : Py.slice_to (Py.len s) s = s.
Proof. induction s as [|c s IH]; simpl; [reflexivity|now rewrite IH]. Qed.

Lemma slice_from_all (s : string) : Py.slice_from (Py.len s) s = "".
Proof. induction s as [|c s IH]; simpl; [reflexivity|exact IH]. Qed.

Lemma get_slice_to (n : nat) (s : string) :
  forall i, i < n -> String.get i (Py.slice_to n s) = String.get i s.
Proof.
  revert s. induction n as [|n IH]; intros s i Hi; [lia|].
  destruct s as [|c s]; [reflexivity|]. simpl.
  destruct i as [|i]; [reflexivity|]. apply IH. lia.
Qed.

Lemma splitlines_single (v : string) :
  Py.has_line_boundary v = false -> v <> "" -> Py.splitlines v = [v].
Proof.
  induction v as [|c v IH]; intros Hb Hne; [now elim Hne|].
  simpl in *. apply orb_false_iff in Hb. destruct Hb as [Hc Hv].
  rewrite Hc. destruct v as [|c' v']; [reflexivity|].
  rewrite IH; [reflexivity|exact Hv|discriminate].
Qed.

Lemma set_multi_line_value_ignores_value (fuel : nat) (self : Element)
      (old value : string) :
  set_multi_line_value fuel (with_value self old) value
  = set_multi_line_value fuel self value.
Proof. destruct fuel; reflexivity. Qed.

Lemma set_multi_line_value_keeps_tag (fuel : nat) (self : Element)
      (value : string) (self' : Element) :
  set_multi_line_value fuel self value = Some self' ->
  get_tag self' = get_tag self.
Proof.
  intros Hrun. apply set_multi_line_value_structure in Hrun.
  now destruct Hrun as (gen & -> & _).
Qed.

(** X1.  The last write wins: once [set_multi_line_value(v)] has returned,
    a further [set_multi_line_value(w)] gives what it would have given on
    the original element; in particular setting [v] again changes
    nothing. *)
Theorem set_multi_line_value_overwrites (fuel : nat) (self : Element)
        (v w : string) (self1 : Element) :
  reserved_tags_plain ->
  set_multi_line_value fuel self v = Some self1 ->
  (forall fuel',
     set_multi_line_value fuel' self1 w = set_multi_line_value fuel' self w) /\
  set_multi_line_value fuel self1 v = Some self1.
Proof.
  intros Htags Hrun.
  assert (Hall : forall fuel' u,
             set_multi_line_value fuel' self1 u
             = set_multi_line_value fuel' self u).
  { intros fuel' u. pose proof Hrun as Hs.
    apply set_multi_line_value_structure in Hs.
    destruct Hs as (gen & -> & Hgen & _).
    rewrite (set_multi_line_value_prepend fuel' self u).
    rewrite set_multi_line_value_prepend.
    cbn [get_child_elements with_children with_value __children].
    rewrite filter_app, filter_filter_not_reserved.
    rewrite (filter_generated self gen Htags Hgen), app_nil_r.
    f_equal.
    exact (set_multi_line_value_ignores_value
             fuel' (with_children self []) (first_chunk self v) u). }
  split; [intros fuel'; apply Hall|]. now rewrite Hall.
Qed.

(** X2.  A value without a line boundary that fits the budget of the
    element is stored as it is: no child is generated, the children
    without a reserved tag stay, and the value reads back unchanged. *)
Theorem set_multi_line_value_short (fuel : nat) (self : Element)
        (value : string) :
  Py.has_line_boundary value = false ->
  Py.len value <= __available_characters (with_value self "") ->
  set_multi_line_value (S fuel) self value
  = Some (with_children (with_value self value)
            (filter not_reserved (get_child_elements self))) /\
  get_multi_line_value
    (with_children (with_value self value)
       (filter not_reserved (get_child_elements self))) = value.
Proof.
  intros Hb Hfit. split.
  - rewrite set_multi_line_value_S. unfold set_multi_line_value_body.
    destruct value as [|c value']; [reflexivity|].
    rewrite splitlines_single by (exact Hb || discriminate).
    set (value := String c value') in *.
    unfold __set_bounded_value. cbv beta iota zeta.
    set (self0 := with_children (set_value self "")
                    (filter not_reserved
                            (get_child_elements (set_value self "")))).
    assert (Hn : __line_length self0 value = Py.len value).
    { unfold __line_length, self0.
      rewrite available_characters_children.
      destruct (Nat.leb_spec (Py.len value)
                  (__available_characters (set_value self ""))) as [_|H];
        [reflexivity|].
      unfold set_value in H. lia. }
    rewrite Hn, slice_to_all, slice_from_all.
    destruct fuel; reflexivity.
  - unfold get_multi_line_value.
    cbn [get_child_elements get_value with_children with_value
         __children __value __crlf].
    now rewrite get_multi_line_value_for_kept by apply filter_not_reserved.
Qed.

(** X3.  [set_multi_line_value] changes the value and the children only:
    class, level, pointer, tag and line terminator stay. *)
Theorem set_multi_line_value_keeps_attributes (fuel : nat) (self : Element)
        (value : string) (self' : Element) :
  set_multi_line_value fuel self value = Some self' ->
  class_of self' = class_of self /\
  get_level self' = get_level self /\
  get_pointer self' = get_pointer self /\
  get_tag self' = get_tag self /\
  __crlf self' = __crlf self.
Proof.
  intros Hrun. apply set_multi_line_value_structure in Hrun.
  destruct Hrun as (gen & -> & _). repeat split.
Qed.

Lemma get_multi_line_value_for_reserved (l : list Element) :
  forall state,
    get_multi_line_value_for l state
    = get_multi_line_value_for (filter is_reserved l) state.
Proof.
  induction l as [|c l IH]; intros [result last]; [reflexivity|].
  unfold is_reserved in *. simpl filter.
  destruct (not_reserved c) eqn:Hc; simpl negb; cbv iota.
  - change (c :: l) with ([c] ++ l)%list.
    rewrite get_multi_line_value_for_app.
    rewrite (get_multi_line_value_for_kept [c]) by (now constructor).
    apply IH.
  - unfold get_multi_line_value_for in *. simpl. apply IH.
Qed.

(** X4.  [get_multi_line_value] reads the continuation and concatenation
    children only: the children with another tag can be dropped without
    changing it, and an element that has no other children than such has
    its own value as multi-line value. *)
Theorem get_multi_line_value_skips_other_children (self : Element)
        (others : list Element) :
  get_multi_line_value self
  = get_multi_line_value
      (with_children self (filter is_reserved (get_child_elements self))) /\
  get_multi_line_value (with_children self (filter not_reserved others))
  = get_value self.
Proof.
  unfold get_multi_line_value. split.
  - cbn [get_child_elements get_value with_children __children __value __crlf].
    now rewrite <- get_multi_line_value_for_reserved.
  - cbn [get_child_elements get_value with_children __children __value __crlf].
    now rewrite get_multi_line_value_for_kept by apply filter_not_reserved.
Qed.

(** X5.  A first line longer than the budget is cut after a word: when the
    window of the budget is not all spaces, [set_multi_line_value] returns
    (the concatenation children having a positive budget) and the value it
    leaves on the element is not empty, does not end with a space, and
    only spaces lie between the cut and the end of the window. *)
Theorem set_multi_line_value_cuts_after_word (self : Element)
        (value : string) (line : string) (lines : list string) :
  Py.splitlines value = line :: lines ->
  __available_characters (with_value self "") < Py.len line ->
  (exists i, i < __available_characters (with_value self "") /\
             String.get i line <> Some " "%char) ->
  (0 < concatenation_budget self ->
   exists self',
     set_multi_line_value (enough_fuel value) self value = Some self') /\
  (forall fuel self',
     set_multi_line_value fuel self value = Some self' ->
     0 < Py.len (get_value self') /\
     String.get (Py.len (get_value self') - 1) (get_value self')
     <> Some " "%char /\
     get_value self' = Py.slice_to (Py.len (get_value self')) line /\
     (forall i,
        Py.len (get_value self') <= i
        < __available_characters (with_value self "") ->
        String.get i line = Some " "%char)).
Proof.
  intros Hlines Hlong (i & Hi & Hnot).
  split; [apply set_multi_line_value_returns|].
  intros fuel self' Hrun.
  apply set_multi_line_value_structure in Hrun.
  destruct Hrun as (gen & -> & _).
  cbn [get_value with_children with_value __value].
  unfold first_chunk. rewrite Hlines.
  pose proof (line_length_spec (with_value self "") line) as Hbp.
  set (A := __available_characters (with_value self "")) in *.
  set (n := __line_length (with_value self "") line) in *.
  assert (Hcut : 0 < n <= A /\
                 String.get (n - 1) line <> Some " "%char /\
                 forall j, n <= j < A -> String.get j line = Some " "%char).
  { inversion Hbp as [Hfit Heq|Hl Hall Heq|m Hl Hm Hlast Hrest Heq]; [lia| |].
    - elim Hnot. apply Hall. exact Hi.
    - repeat split; try lia; assumption. }
  destruct Hcut as (Hn & Hlast & Hrest).
  assert (Hlen : Py.len (Py.slice_to n line) = n)
    by (rewrite len_slice_to; lia).
  rewrite Hlen. repeat split; try lia.
  - rewrite get_slice_to by lia. exact Hlast.
  - exact Hrest.
Qed.

(** X6.  The length [__line_length] returns is at most the budget and at
    most the length of the line, and it is positive exactly when both
    are. *)
Theorem line_length_bounds (self : Element) (line : string) :
  __line_length self line
  <= Nat.min (__available_characters self) (Py.len line) /\
  (0 < __line_length self line <->
   0 < __available_characters self /\ 0 < Py.len line).
Proof.
  pose proof (line_length_le self line) as [Ha Hl].
  split; [lia|]. split.
  - lia.
  - intros [HA HL]. now apply line_length_progress.
Qed.

(** ** Further properties of the tree and the serializer *)

Lemma to_gedcom_string_recursive (self : Element) :
  to_gedcom_string self true
  = fold_left (fun result child => result ++ to_gedcom_string child true)
              (get_child_elements self) (to_gedcom_string self false).
Proof. destruct self; reflexivity. Qed.

(** X7.  Appending a child appends its recursive rendering to the
    recursive rendering of the element and leaves the own line of the
    element as it was. *)
Theorem to_gedcom_string_add_child (self child : Element) :
  to_gedcom_string (add_child_element self child) true
  = to_gedcom_string self true ++ to_gedcom_string child true /\
  to_gedcom_string (add_child_element self child) false
  = to_gedcom_string self false.
Proof.
  split; [|apply to_gedcom_string_children].
  rewrite (to_gedcom_string_recursive (add_child_element self child)).
  rewrite (to_gedcom_string_recursive self). unfold add_child_element.
  rewrite to_gedcom_string_children.
  cbn [get_child_elements with_children __children].
  now rewrite fold_left_app.
Qed.

(** X8.  The child [new_child_element] returns is the new last child of
    the element, whose other children and attributes stay; it is one level
    below the element, has the class selected for the tag, the pointer and
    the tag given and the line terminator of the element, and its own
    children are the ones the split of the value generated. *)
Theorem new_child_element_contract (f : nat) (self : Element)
        (tag pointer value : string) (self' child : Element) :
  new_child_element (set_multi_line_value f) self tag pointer value
  = Some (self', child) ->
  self' = with_children self (get_child_elements self ++ [child]) /\
  class_of child = new_child_class tag /\
  get_level child = (get_level self + 1)%Z /\
  get_pointer child = pointer /\
  __tag child = tag /\
  __crlf child = __crlf self /\
  Forall (generated_under child) (get_child_elements child).
Proof.
  unfold new_child_element, __init__.
  destruct (set_multi_line_value f
              (mkElement (new_child_class tag) (get_level self + 1) pointer
                         tag value (__crlf self) []) value)
    as [c|] eqn:Hc; [|discriminate].
  intros [= <- <-]. apply set_multi_line_value_structure in Hc.
  destruct Hc as (gen & -> & Hgen & _).
  repeat split. exact Hgen.
Qed.

(** ** The accessors of [SourceElement] *)

Lemma last_cons {A : Type} (x : A) (l : list A) (d : A) :
  last (x :: l) d = last l x.
Proof.
  revert x d. induction l as [|y l IH]; intros x d; [reflexivity|].
  change (last (x :: y :: l) d) with (last (y :: l) d).
  rewrite IH. symmetry. apply IH.
Qed.

Lemma fold_left_last_match (p : Element -> bool) (g : Element -> string)
      (l : list Element) :
  forall init,
    fold_left (fun found child => if p child then g child else found) l init
    = last (map g (filter p l)) init.
Proof.
  induction l as [|c l IH]; intros init; [reflexivity|]. simpl.
  destruct (p c); [|apply IH].
  rewrite IH. cbn [map]. now rewrite last_cons.
Qed.

(** X9.  Each of [get_abbreviation], [get_bibliography], [get_reference],
    [get_short_quote] and [get_title] returns the multi-line value of the
    last child with its tag, and the empty string when no child has the
    tag. *)
Theorem source_accessors_read_last_child (self : Element) :
  let last_of tag :=
    last (map get_multi_line_value
              (filter (fun child => (get_tag child =? tag)%string)
                      (get_child_elements self))) "" in
  get_abbreviation self = last_of GEDCOM_TAG_ABBREVIATION /\
  get_bibliography self
  = last_of GEDCOM_PROGRAM_DEFINED_TAG_TEMPLATE_BIBLIOGRAPHY /\
  get_reference self = last_of GEDCOM_TAG_REFERENCE /\
  get_short_quote self
  = last_of GEDCOM_PROGRAM_DEFINED_TAG_TEMPLATE_SHORT_QUOTE /\
  get_title self = last_of GEDCOM_TAG_TITLE.
Proof.
  intros last_of. unfold last_of.
  repeat split; apply fold_left_last_match.
Qed.

(** X10.  A title stored with [new_child_element] is read back by
    [get_title] as its lines joined by the line terminator of the source,
    however long they are, when title children are plain elements and the
    concatenation children below them have a positive budget. *)
Theorem get_title_of_new_title (self : Element) (value : string) :
  reserved_tags_plain ->
  new_child_class GEDCOM_TAG_TITLE = BaseElement ->
  (0 < concatenation_budget (blank_child self GEDCOM_TAG_TITLE) ->
   exists self' child,
     new_child_element (set_multi_line_value (enough_fuel value)) self
                       GEDCOM_TAG_TITLE "" value = Some (self', child)) /\
  (forall f self' child,
     new_child_element (set_multi_line_value f) self GEDCOM_TAG_TITLE ""
                       value = Some (self', child) ->
     get_title self' = Py.join (__crlf self) (Py.splitlines value)).
Proof.
  intros Htags Hplain. split.
  - intros Hb. unfold new_child_element, __init__.
    destruct (set_multi_line_value_returns
                (mkElement (new_child_class GEDCOM_TAG_TITLE)
                           (get_level self + 1) "" GEDCOM_TAG_TITLE value
                           (__crlf self) []) value Hb) as [c Hc].
    rewrite Hc. now exists (add_child_element self c), c.
  - intros f self' child. unfold new_child_element, __init__.
    destruct (set_multi_line_value f
                (mkElement (new_child_class GEDCOM_TAG_TITLE)
                           (get_level self + 1) "" GEDCOM_TAG_TITLE value
                           (__crlf self) []) value)
      as [c|] eqn:Hc; [|discriminate].
    intros [= <- <-].
    pose proof (get_multi_line_value_after_set _ _ _ _ Htags Hc) as Hget.
    pose proof (set_multi_line_value_keeps_tag _ _ _ _ Hc) as Htag.
    unfold get_title, add_child_element.
    cbn [get_child_elements with_children __children].
    rewrite fold_left_app. cbn [fold_left].
    rewrite Htag. unfold get_tag at 1. cbn [class_of __tag].
    rewrite Hplain, String.eqb_refl. exact Hget.
Qed.

Lemma dict_set_keys (d : PyDict.dict) (key value k : string) :
  In k (PyDict.keys (PyDict.set d key value)) ->
  In k (PyDict.keys d) \/ k = key.
Proof.
  unfold PyDict.keys. induction d as [|[k' v'] d IH]; simpl.
  - intros [<-|[]]. now right.
  - destruct (String.eqb_spec k' key) as [->|Hne]; simpl.
    + intros [<-|H]; [now right|left; now right].
    + intros [<-|H]; [left; now left|].
      destruct (IH H) as [H'|H']; [left; now right|now right].
Qed.

Lemma get_template_elements_keys (child : Element) (template : PyDict.dict) :
  ~ In "" (PyDict.keys template) ->
  ~ In "" (PyDict.keys (get_template_elements child template)).
Proof.
  unfold get_template_elements. generalize (get_child_elements child).
  intros l. revert template.
  induction l as [|e l IH]; intros template Hd; [exact Hd|].
  simpl. apply IH.
  destruct (get_tag e =? GEDCOM_TAG_TEMPLATE_ID)%string.
  - intros H. apply dict_set_keys in H. destruct H; [auto|discriminate].
  - destruct (get_tag e =? GEDCOM_TAG_FIELD)%string; [|exact Hd].
    destruct (get_template_field e) as [name value].
    destruct (String.eqb_spec name "") as [->|Hne]; simpl; [exact Hd|].
    intros H. apply dict_set_keys in H. destruct H; [auto|now elim Hne].
Qed.

(** X11.  The dictionary [get_template] returns never has the empty string
    as a key: a field without a name is left out. *)
Theorem get_template_no_empty_key (self : Element) :
  ~ In "" (PyDict.keys (get_template self)).
Proof.
  unfold get_template.
  assert (H0 : ~ In "" (PyDict.keys PyDict.empty)) by (intros []).
  revert H0. generalize PyDict.empty. generalize (get_child_elements self).
  induction l as [|c l IH]; intros template Hd; [exact Hd|].
  simpl. apply IH.
  destruct (get_tag c =? GEDCOM_PROGRAM_DEFINED_TAG_SOURCE_TEMPLATE)%string;
    [now apply get_template_elements_keys|exact Hd].
Qed.

(** X12.  [get_template] returns the empty dictionary for a source none
    of whose children has the template tag, whatever else it has. *)
Theorem get_template_without_template (self : Element) :
  Forall (fun child =>
            get_tag child <> GEDCOM_PROGRAM_DEFINED_TAG_SOURCE_TEMPLATE)
         (get_child_elements self) ->
  get_template self = PyDict.empty.
Proof.
  unfold get_template. generalize PyDict.empty.
  induction 1 as [|c l Hc _ IH]; [reflexivity|]. simpl.
  apply String.eqb_neq in Hc. rewrite Hc. exact IH.
Qed.

Lemma filter_continued_concatenation (self : Element) (gen : list Element) :
  reserved_tags_plain ->
  Forall (chunk_child self GEDCOM_TAG_CONCATENATION) gen ->
  filter is_continued gen = [].
Proof.
  intros (Hneq & Hconc & _) H.
  induction H as [|c gen (v & -> & _) _ IH]; [reflexivity|].
  simpl. unfold is_continued at 1, get_tag. simpl. rewrite Hconc.
  destruct (String.eqb_spec GEDCOM_TAG_CONCATENATION GEDCOM_TAG_CONTINUED)
    as [Heq|_]; [now elim Hneq|exact IH].
Qed.

Lemma filter_continued_kept (l : list Element) :
  filter is_continued (filter not_reserved l) = [].
Proof.
  induction l as [|c l IH]; [reflexivity|]. simpl.
  destruct (not_reserved c) eqn:Hc; [|exact IH]. simpl.
  unfold not_reserved in Hc. apply negb_true_iff, orb_false_iff in Hc.
  unfold is_continued at 1. now rewrite (proj2 Hc).
Qed.

Lemma add_concatenation_while_continued (f fuel : nat) (self : Element)
      (string : string) (index : nat) (self' : Element) :
  reserved_tags_plain ->
  __add_concatenation_while (set_multi_line_value f) fuel self string
                            (Py.len string) index = Some self' ->
  filter is_continued (get_child_elements self')
  = filter is_continued (get_child_elements self).
Proof.
  intros Htags Hloop. apply add_concatenation_while_structure in Hloop.
  destruct Hloop as (gen & -> & Hgen & _).
  cbn [get_child_elements with_children __children].
  rewrite filter_app, (filter_continued_concatenation self gen Htags Hgen).
  apply app_nil_r.
Qed.

Lemma set_multi_line_value_for_continued (f fuel : nat) :
  reserved_tags_plain ->
  forall lines self self',
    set_multi_line_value_for (set_multi_line_value f) fuel self lines
    = Some self' ->
    List.length (filter is_continued (get_child_elements self'))
    = List.length (filter is_continued (get_child_elements self))
      + List.length lines.
Proof.
  intros Htags. induction lines as [|line lines IH]; intros self self'.
  - intros [= <-]. simpl. lia.
  - cbn [set_multi_line_value_for].
    destruct f as [|f]; [discriminate|]. rewrite add_bounded_child_step.
    unfold __add_concatenation.
    destruct (__add_concatenation_while (set_multi_line_value (S f)) fuel
                (add_child_element self
                   (bounded_child self GEDCOM_TAG_CONTINUED line))
                (Py.slice_from
                   (__line_length (blank_child self GEDCOM_TAG_CONTINUED)
                                  line) line)
                (Py.len
                   (Py.slice_from
                      (__line_length (blank_child self GEDCOM_TAG_CONTINUED)
                                     line) line)) 0)
      as [self1|] eqn:Hloop; [|discriminate].
    intros Hrest. apply IH in Hrest. rewrite Hrest.
    rewrite (add_concatenation_while_continued _ _ _ _ _ _ Htags Hloop).
    unfold add_child_element.
    cbn [get_child_elements with_children __children].
    rewrite filter_app, length_app. simpl filter.
    destruct Htags as (_ & _ & Hcont).
    unfold is_continued at 2, get_tag. cbn [bounded_child with_value
      blank_child class_of __tag]. rewrite Hcont, String.eqb_refl.
    simpl. lia.
Qed.

(** X13.  [set_multi_line_value] returns (the concatenation children
    having a positive budget) and the element then has exactly one
    continuation child for each line of the value after the first, empty
    lines included. *)
Theorem set_multi_line_value_continuation_count (self : Element)
        (value : string) :
  reserved_tags_plain ->
  (0 < concatenation_budget self ->
   exists self',
     set_multi_line_value (enough_fuel value) self value = Some self') /\
  (forall fuel self',
     set_multi_line_value fuel self value = Some self' ->
     List.length (filter is_continued (get_child_elements self'))
     = List.length (Py.splitlines value) - 1).
Proof.
  intros Htags. split; [apply set_multi_line_value_returns|].
  intros fuel self'. destruct fuel as [|fuel]; [discriminate|].
  rewrite set_multi_line_value_S. unfold set_multi_line_value_body.
  destruct (Py.splitlines value) as [|line lines].
  - intros [= <-]. cbn [get_child_elements with_children __children].
    change (get_child_elements (set_value self ""))
      with (get_child_elements self).
    now rewrite filter_continued_kept.
  - unfold __set_bounded_value. cbv beta iota zeta.
    unfold __add_concatenation.
    match goal with
    | |- (match ?run with Some _ => _ | None => _ end) = _ -> _ =>
        destruct run as [self1|] eqn:Hloop; [|discriminate]
    end.
    intros Hrest.
    apply (set_multi_line_value_for_continued _ _ Htags) in Hrest.
    rewrite Hrest.
    rewrite (add_concatenation_while_continued _ _ _ _ _ _ Htags Hloop).
    cbn [get_child_elements with_children set_value with_value __children].
    rewrite filter_continued_kept. simpl. lia.
Qed.

End ElementMethods.

(** ** The statements at the sample elements *)

(** The tags of GEDCOM 5.5 meet [reserved_tags_plain]. *)
Ltac plain_tags := split; [discriminate|split; reflexivity].

(** C1 at [stale_note] and a value of two lines. *)
Lemma set_then_get_multi_line_value_witness :
  exists self',
    @set_multi_line_value gedcom_5_5 inherited_get_tag
      (enough_fuel two_lines) stale_note two_lines = Some self' /\
    @get_multi_line_value gedcom_5_5 inherited_get_tag self' = two_lines.
Proof.
  destruct (@set_then_get_multi_line_value gedcom_5_5 inherited_get_tag
              stale_note two_lines) as [[self' Hrun] Hall].
  - plain_tags.
  - vm_compute. lia.
  - exists self'. split; [exact Hrun|].
    apply (proj2 (Hall _ _ Hrun)). reflexivity.
Defined.

(** C1 as stated fails: a line boundary at the end of the value is lost,
    and a boundary other than the terminator of the node comes back as
    that terminator. *)
Lemma round_trip_loses_line_boundaries :
  (exists self',
     @set_multi_line_value gedcom_5_5 inherited_get_tag 3 plain_note
       ("a" ++ newline) = Some self' /\
     @get_multi_line_value gedcom_5_5 inherited_get_tag self' = "a" /\
     @get_multi_line_value gedcom_5_5 inherited_get_tag self'
     <> "a" ++ newline) /\
  (exists self',
     @set_multi_line_value gedcom_5_5 inherited_get_tag 3 plain_note
       ("a" ++ carriage_return_line_feed ++ "b") = Some self' /\
     @get_multi_line_value gedcom_5_5 inherited_get_tag self'
     = "a" ++ newline ++ "b" /\
     @get_multi_line_value gedcom_5_5 inherited_get_tag self'
     <> "a" ++ carriage_return_line_feed ++ "b").
Proof.
  split; eexists; (split; [vm_compute; reflexivity|]);
    (split; [reflexivity|vm_compute; discriminate]).
Qed.

(** C2 at [stale_note] and the long text: the prefixes are short and
    every line is within the bound. *)
Lemma split_lines_within_bound_witness :
  exists self' gen,
    @set_multi_line_value gedcom_5_5 inherited_get_tag
      (enough_fuel long_text) stale_note long_text = Some self' /\
    @get_child_elements self'
    = (filter (@not_reserved gedcom_5_5 inherited_get_tag)
              (@get_child_elements stale_note) ++ gen)%list /\
    Forall (fun node =>
              Py.len (@render_prefix gedcom_5_5 inherited_get_tag node) <= 255 /\
              @line_characters gedcom_5_5 inherited_get_tag node <= 255)
           (self' :: gen).
Proof.
  destruct (@split_lines_within_bound gedcom_5_5 inherited_get_tag
              stale_note long_text) as [Hex Hall].
  - discriminate.
  - destruct Hex as [self' Hrun]; [vm_compute; lia|].
    destruct (Hall _ _ Hrun) as (gen & Hch & Hbound).
    exists self', gen. split; [exact Hrun|]. split; [exact Hch|].
    assert (Hshort : Forall
                       (fun node =>
                          Py.len (@render_prefix gedcom_5_5 inherited_get_tag
                                                 node) <= 255)
                       (self' :: gen)).
    { vm_compute in Hrun. injection Hrun as <-.
      vm_compute in Hch. injection Hch as <-.
      repeat constructor; vm_compute; lia. }
    eapply Forall_impl; [|exact (Forall_and Hshort Hbound)].
    intros node [Hp Hq]. split; [exact Hp|exact (Hq Hp)].
Defined.

(** C2 as stated fails: with an empty terminator the line of the node has
    256 characters, and a prefix longer than 255 characters is a line
    longer than 255 characters whatever the value. *)
Lemma line_bound_exceeded :
  (exists self',
     @set_multi_line_value gedcom_5_5 inherited_get_tag
       (enough_fuel long_text) unterminated_note long_text = Some self' /\
     @line_characters gedcom_5_5 inherited_get_tag self' = 256) /\
  (exists self',
     @set_multi_line_value gedcom_5_5 inherited_get_tag
       (enough_fuel "abc") long_pointer_note "abc" = Some self' /\
     @line_characters gedcom_5_5 inherited_get_tag self' = 267).
Proof.
  split; eexists; (split; [vm_compute; reflexivity|]); vm_compute; reflexivity.
Qed.

(** C3 at [stale_note] and the long text. *)
Lemma overflow_children_are_siblings_witness :
  exists self' gen,
    @set_multi_line_value gedcom_5_5 inherited_get_tag
      (enough_fuel long_text) stale_note long_text = Some self' /\
    @get_child_elements self'
    = (filter (@not_reserved gedcom_5_5 inherited_get_tag)
              (@get_child_elements stale_note) ++ gen)%list /\
    Forall (fun child => @get_child_elements child = []) gen.
Proof.
  destruct (@overflow_children_are_siblings gedcom_5_5 inherited_get_tag
              stale_note long_text) as [Hex Hall].
  destruct Hex as [self' Hrun]; [vm_compute; lia|].
  destruct (Hall _ _ Hrun) as (gen & Hch & Hflat).
  exists self', gen. repeat split; [exact Hrun|exact Hch|].
  eapply Forall_impl; [|exact Hflat]. intros c H. exact (proj2 (proj2 H)).
Defined.

(** C3 as stated fails: the two overflow chunks of one line of 600
    characters are two children of the node itself, and the first of them
    has no children. *)
Lemma overflow_is_not_nested :
  exists self' first second,
    @set_multi_line_value gedcom_5_5 inherited_get_tag
      (enough_fuel long_text) plain_note long_text = Some self' /\
    @get_child_elements self' = [first; second] /\
    @get_tag gedcom_5_5 inherited_get_tag first = "CONC" /\
    @get_tag gedcom_5_5 inherited_get_tag second = "CONC" /\
    Py.len (@get_value self') = 248 /\
    Py.len (@get_value first) = 248 /\
    Py.len (@get_value second) = 104 /\
    @get_child_elements first = [] /\
    @get_child_elements second = [].
Proof.
  do 3 eexists. split; [vm_compute; reflexivity|].
  repeat split.
Qed.

(** C4 at [stale_note]. *)
Lemma purge_on_reset_witness :
  exists self' fresh,
    @set_multi_line_value gedcom_5_5 inherited_get_tag
      (enough_fuel two_lines) stale_note two_lines = Some self' /\
    @set_multi_line_value gedcom_5_5 inherited_get_tag
      (enough_fuel two_lines) (with_children stale_note []) two_lines
    = Some fresh /\
    @get_child_elements self'
    = (filter (@not_reserved gedcom_5_5 inherited_get_tag)
              (@get_child_elements stale_note)
       ++ @get_child_elements fresh)%list.
Proof.
  destruct (@purge_on_reset gedcom_5_5 inherited_get_tag stale_note two_lines)
    as [Hex Hall].
  - plain_tags.
  - destruct Hex as [self' Hrun]; [vm_compute; lia|].
    destruct (Hall _ _ Hrun) as (fresh & Hfresh & Hch & _).
    exists self', fresh. repeat split; assumption.
Defined.

(** C5 at [crlf_note]. *)
Lemma available_characters_counts_terminator_witness :
  @__available_characters gedcom_5_5 inherited_get_tag crlf_note
  = Nat.max 0
      (255 - (Py.len (@render_prefix gedcom_5_5 inherited_get_tag crlf_note)
              + Py.len (__crlf crlf_note))).
Proof.
  apply (@available_characters_counts_terminator gedcom_5_5 inherited_get_tag
           crlf_note).
  reflexivity.
Defined.

(** C5 as stated fails: the terminator counts.  The budget of a note with
    the terminator CR LF is 247, neither 255 minus the prefix nor 255 minus
    the prefix and a separator. *)
Lemma available_characters_not_prefix_only :
  @__available_characters gedcom_5_5 inherited_get_tag crlf_note = 247 /\
  @__available_characters gedcom_5_5 inherited_get_tag crlf_note
  <> Nat.max 0
       (255 - Py.len (@render_prefix gedcom_5_5 inherited_get_tag crlf_note)) /\
  @__available_characters gedcom_5_5 inherited_get_tag crlf_note
  <> Nat.max 0
       (255 - Py.len (@render_prefix gedcom_5_5 inherited_get_tag crlf_note
                      ++ " ")).
Proof. repeat split; vm_compute; discriminate. Qed.

(** C6 at [deep_note], whose budget is 0, and a candidate of one
    character. *)
Lemma line_length_break_point_witness :
  break_point "x"
    (@__available_characters gedcom_5_5 inherited_get_tag deep_note)
    (@__line_length gedcom_5_5 inherited_get_tag deep_note "x") /\
  (forall i,
     i < @__available_characters gedcom_5_5 inherited_get_tag deep_note ->
     String.get i "x" = Some " "%char).
Proof.
  destruct (@line_length_break_point gedcom_5_5 inherited_get_tag
              deep_note "x") as [Hbreak Hzero].
  split; [exact Hbreak|].
  apply Hzero; vm_compute; [lia|reflexivity].
Defined.

(** C7.  At [deep_note] and at [long_terminator_note] the concatenation
    children have no budget: [set_multi_line_value("x")] adds empty
    children for ever, whatever the fuel. *)
Theorem zero_budget_split_never_returns :
  forall (absent_get_tag : ElementClass -> string -> string) (fuel : nat),
    @set_multi_line_value gedcom_5_5 absent_get_tag fuel deep_note "x"
    = None /\
    @set_multi_line_value gedcom_5_5 absent_get_tag fuel
      long_terminator_note "x" = None.
Proof.
  intros absent_get_tag fuel. split;
    apply (@set_multi_line_value_diverges gedcom_5_5 absent_get_tag
             _ "x" "x" []);
    solve [reflexivity | vm_compute; reflexivity | vm_compute; lia].
Qed.

(** C9 at [cited_source]: the pointer of the repository citation is not
    returned. *)
Example get_repository_pointer_of_cited_source :
  @get_repository_pointer gedcom_5_5 inherited_get_tag cited_source = "" /\
  map (@get_value) (@get_child_elements cited_source)
  = ["Parish register"; "@R1@"].
Proof. split; reflexivity. Qed.

(** C10 at the arguments [(0, "", "NOTE", two_lines)]. *)
Lemma constructor_keeps_first_chunk_witness :
  exists e,
    @Element_new gedcom_5_5 inherited_get_tag (enough_fuel two_lines)
      BaseElement 0 "" "NOTE" two_lines newline true = Some e /\
    @get_value e = "line one" /\
    @get_value e <> two_lines /\
    @get_multi_line_value gedcom_5_5 inherited_get_tag e = two_lines.
Proof.
  destruct (@constructor_keeps_first_chunk gedcom_5_5 inherited_get_tag
              BaseElement 0%Z "" "NOTE" two_lines newline) as [Hex Hall].
  - left. reflexivity.
  - destruct Hex as [e Hrun]; [vm_compute; lia|].
    destruct (Hall _ _ Hrun)
      as ((line & lines & Hlines & Hval) & Hne & _ & Hjoin).
    exists e. split; [exact Hrun|]. split; [|split; [exact Hne|]].
    + injection Hlines as <- <-. rewrite Hval. reflexivity.
    + rewrite Hjoin by plain_tags. reflexivity.
Defined.

(** ** The further properties at the sample elements *)

(** X1 at [stale_note]: setting the two lines twice. *)
Lemma set_multi_line_value_overwrites_witness :
  exists self1,
    @set_multi_line_value gedcom_5_5 inherited_get_tag
      (enough_fuel two_lines) stale_note two_lines = Some self1 /\
    @set_multi_line_value gedcom_5_5 inherited_get_tag
      (enough_fuel two_lines) self1 two_lines = Some self1.
Proof.
  assert (Hex : exists self1,
             @set_multi_line_value gedcom_5_5 inherited_get_tag
               (enough_fuel two_lines) stale_note two_lines = Some self1)
    by (eexists; vm_compute; reflexivity).
  destruct Hex as [self1 Hrun]. exists self1. split; [exact Hrun|].
  apply (proj2 (@set_multi_line_value_overwrites gedcom_5_5 inherited_get_tag
                  _ stale_note two_lines two_lines self1
                  ltac:(plain_tags) Hrun)).
Defined.

(** X2 at [stale_note] and a short value. *)
Lemma set_multi_line_value_short_witness :
  @set_multi_line_value gedcom_5_5 inherited_get_tag 1 stale_note
    "A short note"
  = Some (with_children (with_value stale_note "A short note")
            (filter (@not_reserved gedcom_5_5 inherited_get_tag)
                    (@get_child_elements stale_note))).
Proof.
  apply (@set_multi_line_value_short gedcom_5_5 inherited_get_tag 0
           stale_note "A short note").
  - reflexivity.
  - vm_compute. lia.
Defined.

(** X3 at [stale_note]. *)
Lemma set_multi_line_value_keeps_attributes_witness :
  exists self',
    @set_multi_line_value gedcom_5_5 inherited_get_tag
      (enough_fuel long_text) stale_note long_text = Some self' /\
    @get_level self' = 1%Z /\
    @get_tag gedcom_5_5 inherited_get_tag self' = "NOTE".
Proof.
  assert (Hex : exists self',
             @set_multi_line_value gedcom_5_5 inherited_get_tag
               (enough_fuel long_text) stale_note long_text = Some self')
    by (eexists; vm_compute; reflexivity).
  destruct Hex as [self' Hrun]. exists self'. split; [exact Hrun|].
  destruct (@set_multi_line_value_keeps_attributes gedcom_5_5
              inherited_get_tag _ stale_note long_text self' Hrun)
    as (_ & Hlevel & _ & Htag & _).
  split; [exact Hlevel|exact Htag].
Defined.

(** X5 at [plain_note] and [spaced_text]: the cut falls after the first
    word, two characters before the end of the window. *)
Lemma set_multi_line_value_cuts_after_word_witness :
  exists self',
    @set_multi_line_value gedcom_5_5 inherited_get_tag
      (enough_fuel spaced_text) plain_note spaced_text = Some self' /\
    0 < Py.len (@get_value self') /\
    String.get (Py.len (@get_value self') - 1) (@get_value self')
    <> Some " "%char.
Proof.
  destruct (@set_multi_line_value_cuts_after_word gedcom_5_5
              inherited_get_tag plain_note spaced_text spaced_text [])
    as [Hex Hall].
  - vm_compute. reflexivity.
  - vm_compute. lia.
  - exists 0. split; [vm_compute; lia|vm_compute; discriminate].
  - destruct Hex as [self' Hrun]; [vm_compute; lia|].
    destruct (Hall _ _ Hrun) as (Hlen & Hlast & _).
    exists self'. repeat split; assumption.
Defined.

(** X8 at [cited_source]: a further title of two lines. *)
Lemma new_child_element_contract_witness :
  exists self' child,
    @new_child_element gedcom_5_5
      (@set_multi_line_value gedcom_5_5 inherited_get_tag
         (enough_fuel two_lines))
      cited_source "TITL" "" two_lines = Some (self', child) /\
    @get_child_elements self'
    = (@get_child_elements cited_source ++ [child])%list /\
    @get_level child = 1%Z /\
    @get_value child = "line one".
Proof.
  assert (Hex : exists self' child,
             @new_child_element gedcom_5_5
               (@set_multi_line_value gedcom_5_5 inherited_get_tag
                  (enough_fuel two_lines))
               cited_source "TITL" "" two_lines = Some (self', child) /\
             @get_value child = "line one")
    by (do 2 eexists; split; vm_compute; reflexivity).
  destruct Hex as (self' & child & Hnew & Hvalue). exists self', child.
  split; [exact Hnew|].
  destruct (@new_child_element_contract gedcom_5_5 inherited_get_tag _
              cited_source "TITL" "" two_lines self' child Hnew)
    as (-> & _ & Hlevel & _).
  repeat split; assumption.
Defined.

(** X10 at [cited_source]: a title of 600 characters. *)
Lemma get_title_of_new_title_witness :
  exists self' child,
    @new_child_element gedcom_5_5
      (@set_multi_line_value gedcom_5_5 inherited_get_tag
         (enough_fuel long_text))
      cited_source "TITL" "" long_text = Some (self', child) /\
    @get_title gedcom_5_5 inherited_get_tag source_tags_5_5 self' = long_text.
Proof.
  destruct (@get_title_of_new_title gedcom_5_5 inherited_get_tag
              source_tags_5_5 cited_source long_text) as [Hex Hall].
  - plain_tags.
  - reflexivity.
  - destruct Hex as (self' & child & Hnew); [vm_compute; lia|].
    exists self', child. split; [exact Hnew|].
    rewrite (Hall _ _ _ Hnew). vm_compute. reflexivity.
Defined.

(** X12 at [cited_source], which has a title and a repository citation
    and no template. *)
Lemma get_template_without_template_witness :
  @get_template gedcom_5_5 inherited_get_tag source_tags_5_5 cited_source
  = PyDict.empty.
Proof.
  apply (@get_template_without_template gedcom_5_5 inherited_get_tag
           source_tags_5_5 cited_source).
  repeat constructor; vm_compute; discriminate.
Defined.

(** The accessors at [templated_source]: the second title wins and is
    read with its continuation lines; the field without a name is not in
    the template. *)
Example accessors_of_templated_source :
  @get_title gedcom_5_5 inherited_get_tag source_tags_5_5 templated_source
  = "Second title" ++ newline ++ "goes on" /\
  @get_abbreviation gedcom_5_5 inherited_get_tag source_tags_5_5
    templated_source = "" /\
  @get_template gedcom_5_5 inherited_get_tag source_tags_5_5 templated_source
  = [("Id", "42"); ("Author", "A. Writer")].
Proof. repeat split. Qed.

(** X13 at [stale_note] and a value of three lines, the second empty. *)
Lemma set_multi_line_value_continuation_count_witness :
  exists self',
    @set_multi_line_value gedcom_5_5 inherited_get_tag
      (enough_fuel ("one" ++ newline ++ newline ++ "three")) stale_note
      ("one" ++ newline ++ newline ++ "three") = Some self' /\
    List.length
      (filter (@is_continued gedcom_5_5 inherited_get_tag)
              (@get_child_elements self')) = 2.
Proof.
  destruct (@set_multi_line_value_continuation_count gedcom_5_5
              inherited_get_tag stale_note
              ("one" ++ newline ++ newline ++ "three")) as [Hex Hall].
  - plain_tags.
  - destruct Hex as [self' Hrun]; [vm_compute; lia|].
    exists self'. split; [exact Hrun|].
    rewrite (Hall _ _ Hrun). reflexivity.
Defined.
